(** * Session orchestration of the transcription client

    A shallow embedding of the [useTranscription] hook and of the
    [TranscriptionAPI.pollTaskStatus] loop of the Turkish transcription
    front end, with the properties of its job state, its polling loop and
    its imperative operations.

    Modelling conventions.
    - A JavaScript [number] is an exact rational ([Q]); the value drawn by
      [Math.random()] is an argument [rnd] of the callback that uses it.
    - An optional field ([x?: T], or a value that may be [undefined] or
      [null]) is an [option].
    - React state is a record; [setX(prev => ...)] is a function applied to
      the current record and [setX({...})] a constant one.
    - An [await] is resolved by an [Outcome] given as an argument: the value
      the promise resolves to, or the error it rejects with.
    - Calls that leave the hook (toasts, HTTP requests, sockets, the
      clipboard, the [onSuccess]/[onError] callbacks) are recorded, in
      order, as a list of [Effect]s. *)

From Stdlib Require Import String List Bool Arith NArith QArith Lia Lqa.
Import ListNotations.
Open Scope string_scope.

(** ** JavaScript values *)

(** Truthiness of an optional string: [undefined] and [''] are falsy. *)
Definition truthy_str (x : option string) : bool :=
  match x with
  | Some s => negb (s =? "")
  | None => false
  end.

(** Truthiness of an optional number: [undefined] and [0] are falsy. *)
Definition truthy_num (x : option Q) : bool :=
  match x with
  | Some q => negb (Qeq_bool q 0)
  | None => false
  end.

(** [x || d] on numbers. *)
Definition or_num (x : option Q) (d : Q) : Q :=
  match x with
  | Some q => if truthy_num x then q else d
  | None => d
  end.

(** [x || d] on strings, where the default is a string. *)
Definition or_str (x : option string) (d : string) : string :=
  match x with
  | Some s => if truthy_str x then s else d
  | None => d
  end.

(** [x || d] on strings, where the default may itself be [undefined]. *)
Definition or_ostr (x d : option string) : option string :=
  if truthy_str x then x else d.

(** What a [catch] clause receives: an [APIError] with its message, or any
    other thrown value. *)
Inductive JsError :=
| APIError (message : string)
| OtherError (message : string).

(** [error instanceof APIError ? error.message : fallback] *)
Definition errorMessage (e : JsError) (fallback : string) : string :=
  match e with
  | APIError m => m
  | OtherError _ => fallback
  end.

(** How a promise settles. *)
Inductive Outcome (A : Type) :=
| Resolved (a : A)
| Rejected (e : JsError).
Arguments Resolved {A} a.
Arguments Rejected {A} e.

(** ** Types of [lib/types.ts] *)

Inductive TaskStatus := pending | processing | completed | failed.

Definition TaskStatus_eqb (a b : TaskStatus) : bool :=
  match a, b with
  | pending, pending | processing, processing
  | completed, completed | failed, failed => true
  | _, _ => false
  end.

Record File := { name : string; file_size : N }.

Record FileUploadResponse := {
  file_id : string;
  filename : string;
  size : N;
  path : string
}.

(** [FileInfo] is only stored by the hook, never inspected. *)
Record FileInfo := {
  info_filename : string;
  format : string;
  duration : Q
}.

(** The options sent with a job; the hook passes them through unread. *)
Record TranscriptionRequest := {
  model_size : option string;
  language : option string;
  apply_vad : option bool;
  normalize_audio : option bool
}.

(** The fields of [TranscriptionResponse] that the hook and the polling
    loop read; the remaining optional fields travel inside the record
    untouched and are left out. *)
Module TranscriptionResponse.
Record t := mk {
  task_id : string;
  status : TaskStatus;
  text : option string;
  error : option string;
  created_at : string
}.
End TranscriptionResponse.

Module UploadState.
Record t := mk {
  file : option File;
  uploading : bool;
  progress : Q;
  error : option string
}.

Definition set_progress (p : Q) (s : t) : t :=
  mk (file s) (uploading s) p (error s).
Definition set_uploading (b : bool) (s : t) : t :=
  mk (file s) b (progress s) (error s).
Definition set_error (e : option string) (s : t) : t :=
  mk (file s) (uploading s) (progress s) e.
End UploadState.

Module TranscriptionState.
Record t := mk {
  taskId : option string;
  status : TaskStatus;
  progress : Q;
  stage : option string;
  message : option string;
  result : option TranscriptionResponse.t;
  error : option string
}.

Definition set_taskId (x : option string) (s : t) : t :=
  mk x (status s) (progress s) (stage s) (message s) (result s) (error s).
Definition set_status (x : TaskStatus) (s : t) : t :=
  mk (taskId s) x (progress s) (stage s) (message s) (result s) (error s).
Definition set_progress (x : Q) (s : t) : t :=
  mk (taskId s) (status s) x (stage s) (message s) (result s) (error s).
Definition set_stage (x : option string) (s : t) : t :=
  mk (taskId s) (status s) (progress s) x (message s) (result s) (error s).
Definition set_message (x : option string) (s : t) : t :=
  mk (taskId s) (status s) (progress s) (stage s) x (result s) (error s).
Definition set_result (x : option TranscriptionResponse.t) (s : t) : t :=
  mk (taskId s) (status s) (progress s) (stage s) (message s) x (error s).
Definition set_error (x : option string) (s : t) : t :=
  mk (taskId s) (status s) (progress s) (stage s) (message s) (result s) x.
End TranscriptionState.

(** ** Frames of the push channel

    [connectWebSocket] parses each frame as JSON and hands it to
    [onMessage], which dispatches on [data.type]. *)

Record ProgressData := {
  pd_progress : option Q;
  pd_stage : option string;
  pd_message : option string
}.

Record StatusData := {
  sd_status : TaskStatus;
  sd_progress : option Q
}.

Inductive WsMessage :=
| MsgProgress (d : ProgressData)
| MsgStatus (d : StatusData)
| MsgResult (d : option TranscriptionResponse.t)
| MsgError (err : option string)
| MsgOther.

(** ** The hook: state, references and effects *)

(** Identifiers handed out by the environment: [toast.loading] returns the
    id of the toast it creates (sonner numbers them from 1, so an id is
    always truthy); a polling loop and a socket are named by a number. *)
Definition ToastId := positive.
Definition LoopId := nat.
Definition SocketId := nat.

Inductive DownloadFormat := txt | srt | json.

Definition formatName (f : DownloadFormat) : string :=
  match f with txt => "txt" | srt => "srt" | json => "json" end.

Inductive Effect :=
| ToastLoading (id : option ToastId) (msg : string)
| ToastProgress (id : ToastId) (stage : string) (progress : Q)
                (description : string)
| ToastSuccess (id : option ToastId) (msg : string)
| ToastError (id : option ToastId) (msg : string)
| ToastDismiss (id : ToastId)
| ApiUploadFile (f : File)
| ApiGetFileInfo (fileId : string)
| ApiCancelUpload (filename : string)
| ApiStartTranscription (fileId : string) (options : TranscriptionRequest)
| ApiPollTaskStatus (taskId : string) (interval : N) (loop : LoopId)
| StopPolling (loop : LoopId)
| ApiConnectWebSocket (taskId : string)
| WsClose (ws : SocketId)
| ApiDownloadResult (taskId : string) (fmt : DownloadFormat)
| SaveAs (filename : string)
| ClipboardWriteText (text : string)
| OnSuccess (r : TranscriptionResponse.t)
| OnError (e : JsError).

(** The [useState] cells and the [useRef] cells of [useTranscription]. *)
Record Hook := mkHook {
  uploadState : UploadState.t;
  transcriptionState : TranscriptionState.t;
  fileInfo : option FileInfo;
  uploadedFile : option FileUploadResponse;
  stopPollingRef : option LoopId;
  wsRef : option SocketId;
  toastIdRef : option ToastId
}.

Definition initialUploadState : UploadState.t :=
  UploadState.mk None false 0 None.

Definition initialTranscriptionState : TranscriptionState.t :=
  TranscriptionState.mk None pending 0 None None None None.

Definition initialHook : Hook :=
  mkHook initialUploadState initialTranscriptionState None None None None None.

(** A handler is a state transformer that also returns a value and the
    effects it performed. *)
Definition M (A : Type) : Type := Hook -> A * Hook * list Effect.

Definition ret {A} (a : A) : M A := fun h => (a, h, []).

Definition bind {A B} (m : M A) (f : A -> M B) : M B :=
  fun h =>
    let '(a, h1, e1) := m h in
    let '(b, h2, e2) := f a h1 in
    (b, h2, (e1 ++ e2)%list).

Declare Scope hook_scope.
Delimit Scope hook_scope with hook.
Notation "x <- m ;; k" := (bind m (fun x => k))
  (at level 61, m at next level, right associativity) : hook_scope.
Notation "m ;; k" := (bind m (fun _ => k))
  (at level 61, right associativity) : hook_scope.
Open Scope hook_scope.

Definition valueOf {A} (r : A * Hook * list Effect) : A := fst (fst r).
Definition stateOf {A} (r : A * Hook * list Effect) : Hook := snd (fst r).
Definition effectsOf {A} (r : A * Hook * list Effect) : list Effect := snd r.

Definition emit (e : Effect) : M unit := fun h => (tt, h, [e]).
Definition when (b : bool) (m : M unit) : M unit := if b then m else ret tt.

Definition setUploadState (f : UploadState.t -> UploadState.t) : M unit :=
  fun h => (tt, mkHook (f (uploadState h)) (transcriptionState h) (fileInfo h)
                       (uploadedFile h) (stopPollingRef h) (wsRef h)
                       (toastIdRef h), []).

Definition setTranscriptionState
    (f : TranscriptionState.t -> TranscriptionState.t) : M unit :=
  fun h => (tt, mkHook (uploadState h) (f (transcriptionState h)) (fileInfo h)
                       (uploadedFile h) (stopPollingRef h) (wsRef h)
                       (toastIdRef h), []).

Definition setFileInfo (x : option FileInfo) : M unit :=
  fun h => (tt, mkHook (uploadState h) (transcriptionState h) x
                       (uploadedFile h) (stopPollingRef h) (wsRef h)
                       (toastIdRef h), []).

Definition setUploadedFile (x : option FileUploadResponse) : M unit :=
  fun h => (tt, mkHook (uploadState h) (transcriptionState h) (fileInfo h)
                       x (stopPollingRef h) (wsRef h) (toastIdRef h), []).

Definition setStopPollingRef (x : option LoopId) : M unit :=
  fun h => (tt, mkHook (uploadState h) (transcriptionState h) (fileInfo h)
                       (uploadedFile h) x (wsRef h) (toastIdRef h), []).

Definition setWsRef (x : option SocketId) : M unit :=
  fun h => (tt, mkHook (uploadState h) (transcriptionState h) (fileInfo h)
                       (uploadedFile h) (stopPollingRef h) x (toastIdRef h), []).

Definition setToastIdRef (x : option ToastId) : M unit :=
  fun h => (tt, mkHook (uploadState h) (transcriptionState h) (fileInfo h)
                       (uploadedFile h) (stopPollingRef h) (wsRef h) x, []).

Definition getStopPollingRef : M (option LoopId) :=
  fun h => (stopPollingRef h, h, []).
Definition getWsRef : M (option SocketId) := fun h => (wsRef h, h, []).
Definition getToastIdRef : M (option ToastId) := fun h => (toastIdRef h, h, []).

(** ** The two update callbacks of [startTranscription] *)

(** The progress shown after a poll response: [Math.random() * 50 + 25]
    while processing, 100 when completed, 0 when failed, else unchanged. *)
Definition pollProgress (st : TaskStatus) (rnd prev : Q) : Q :=
  match st with
  | processing => rnd * 50 + 25
  | completed => 100
  | failed => 0
  | pending => prev
  end.

(** The [setTranscriptionState] updater of the [pollTaskStatus] callback. *)
Definition applyPoll (update : TranscriptionResponse.t) (rnd : Q)
    (prev : TranscriptionState.t) : TranscriptionState.t :=
  TranscriptionState.mk
    (TranscriptionState.taskId prev)
    (TranscriptionResponse.status update)
    (pollProgress (TranscriptionResponse.status update) rnd
                  (TranscriptionState.progress prev))
    (TranscriptionState.stage prev)
    (TranscriptionState.message prev)
    (Some update)
    (TranscriptionState.error prev).

(** The callback given to [api.pollTaskStatus]. *)
Definition onUpdate (update : TranscriptionResponse.t) (rnd : Q) : M unit :=
  setTranscriptionState (applyPoll update rnd) ;;
  match TranscriptionResponse.status update with
  | completed =>
      tid <- getToastIdRef ;;
      emit (ToastSuccess tid "Transcription tamamlandı!") ;;
      setToastIdRef None ;;
      emit (OnSuccess update)
  | failed =>
      tid <- getToastIdRef ;;
      emit (ToastError tid
              ("Transcription başarısız: " ++
               or_str (TranscriptionResponse.error update) "Bilinmeyen hata")) ;;
      setToastIdRef None ;;
      emit (OnError (OtherError
              (or_str (TranscriptionResponse.error update)
                      "Transcription failed")))
  | _ => ret tt
  end.

(** The [setTranscriptionState] updater of each branch of [onMessage]. *)
Definition applyPush (m : WsMessage) (prev : TranscriptionState.t)
    : TranscriptionState.t :=
  match m with
  | MsgProgress d =>
      TranscriptionState.mk
        (TranscriptionState.taskId prev)
        (TranscriptionState.status prev)
        (or_num (pd_progress d) 0)
        (or_ostr (pd_stage d) (TranscriptionState.stage prev))
        (Some (or_str (pd_message d) ""))
        (TranscriptionState.result prev)
        (TranscriptionState.error prev)
  | MsgStatus d =>
      TranscriptionState.set_progress
        (or_num (sd_progress d) (TranscriptionState.progress prev))
        (TranscriptionState.set_status (sd_status d) prev)
  | MsgResult d =>
      TranscriptionState.set_result d
        (TranscriptionState.set_progress 100
           (TranscriptionState.set_status completed prev))
  | MsgError err =>
      TranscriptionState.set_error err
        (TranscriptionState.set_status failed prev)
  | MsgOther => prev
  end.

(** The [onMessage] handler given to [api.connectWebSocket]. *)
Definition onMessage (m : WsMessage) : M unit :=
  match m with
  | MsgProgress d =>
      setTranscriptionState (applyPush m) ;;
      tid <- getToastIdRef ;;
      match tid with
      | Some id =>
          emit (ToastProgress id (or_str (pd_stage d) "Processing")
                  (or_num (pd_progress d) 0)
                  (or_str (pd_message d) "Transcription in progress..."))
      | None => ret tt
      end
  | MsgOther => ret tt
  | _ => setTranscriptionState (applyPush m)
  end.

(** ** The operations of the hook

    A handler reads the state of the render that created it. Handlers are
    run here on the current state (React has re-rendered since the last
    update); [cancelSeen] keeps the captured values apart so that a handler
    called twice from one render can be stated too. An asynchronous
    operation is run to completion with the outcomes of its awaits as
    arguments, no other handler being interleaved. *)

Definition Blob := string.

Section Operations.

(** [options.pollingInterval], 2000 ms by default. *)
Variable pollingInterval : N.

(** The progress callback given to [api.uploadFile], once per event. *)
Fixpoint reportProgress (ps : list Q) : M unit :=
  match ps with
  | [] => ret tt
  | p :: ps' =>
      setUploadState (UploadState.set_progress p) ;; reportProgress ps'
  end.

(** The [catch] block of [uploadFile]. *)
Definition uploadFailed (e : JsError) : M (option FileUploadResponse) :=
  setUploadState (fun prev =>
    UploadState.set_error (Some (errorMessage e "Yükleme başarısız"))
      (UploadState.set_uploading false prev)) ;;
  tid <- getToastIdRef ;;
  emit (ToastError tid (errorMessage e "Yükleme başarısız")) ;;
  setToastIdRef None ;;
  emit (OnError e) ;;
  ret None.

(** [uploadFile(file)]: [tid] is the id of the toast it opens, [ps] the
    progress events of the transfer, [up] the outcome of
    [api.uploadFile] and [info] the one of [api.getFileInfo]. *)
Definition uploadFile (file : File) (tid : ToastId) (ps : list Q)
    (up : Outcome FileUploadResponse) (info : Outcome FileInfo)
    : M (option FileUploadResponse) :=
  setUploadState (fun _ => UploadState.mk (Some file) true 0 None) ;;
  emit (ToastLoading None "Dosya yükleniyor...") ;;
  setToastIdRef (Some tid) ;;
  emit (ApiUploadFile file) ;;
  reportProgress ps ;;
  match up with
  | Resolved response =>
      setUploadedFile (Some response) ;;
      setUploadState (fun prev =>
        UploadState.set_progress 100
          (UploadState.set_uploading false prev)) ;;
      t <- getToastIdRef ;;
      emit (ToastSuccess t "Dosya yüklendi") ;;
      setToastIdRef None ;;
      emit (ApiGetFileInfo (file_id response)) ;;
      match info with
      | Resolved i => setFileInfo (Some i) ;; ret (Some response)
      | Rejected e => uploadFailed e
      end
  | Rejected e => uploadFailed e
  end.

(** [startTranscription(fileId, options)]: [tid] is the id of the toast
    it opens, [sub] the outcome of [api.startTranscription], [loop] the
    polling loop that [api.pollTaskStatus] starts and [ws] the socket
    that [api.connectWebSocket] returns, or the error it throws. *)
Definition startTranscription (fileId : string)
    (options : TranscriptionRequest) (tid : ToastId)
    (sub : Outcome TranscriptionResponse.t) (loop : LoopId)
    (ws : Outcome SocketId) : M unit :=
  setTranscriptionState (fun _ =>
    TranscriptionState.mk None processing 0 None None None None) ;;
  emit (ToastLoading None "Transcription başlatılıyor...") ;;
  setToastIdRef (Some tid) ;;
  emit (ApiStartTranscription fileId options) ;;
  match sub with
  | Resolved response =>
      setTranscriptionState (fun prev =>
        TranscriptionState.set_status (TranscriptionResponse.status response)
          (TranscriptionState.set_taskId
             (Some (TranscriptionResponse.task_id response)) prev)) ;;
      t <- getToastIdRef ;;
      emit (ToastLoading t "İşlem devam ediyor...") ;;
      emit (ApiPollTaskStatus (TranscriptionResponse.task_id response)
              pollingInterval loop) ;;
      setStopPollingRef (Some loop) ;;
      emit (ApiConnectWebSocket (TranscriptionResponse.task_id response)) ;;
      match ws with
      | Resolved sock => setWsRef (Some sock)
      | Rejected _ => ret tt
      end
  | Rejected e =>
      setTranscriptionState (fun prev =>
        TranscriptionState.set_error
          (Some (errorMessage e "Transcription başlatılamadı"))
          (TranscriptionState.set_status failed prev)) ;;
      t <- getToastIdRef ;;
      emit (ToastError t (errorMessage e "Transcription başlatılamadı")) ;;
      setToastIdRef None ;;
      emit (OnError e)
  end.

(** [processFile(file, options)]: upload, then start if the upload gave
    a response. *)
Definition processFile (file : File) (options : TranscriptionRequest)
    (tid : ToastId) (ps : list Q) (up : Outcome FileUploadResponse)
    (info : Outcome FileInfo) (tid' : ToastId)
    (sub : Outcome TranscriptionResponse.t) (loop : LoopId)
    (ws : Outcome SocketId) : M unit :=
  uploadResult <- uploadFile file tid ps up info ;;
  match uploadResult with
  | Some r => startTranscription (file_id r) options tid' sub loop ws
  | None => ret tt
  end.

(** [format.toUpperCase()] *)
Definition formatUpper (f : DownloadFormat) : string :=
  match f with txt => "TXT" | srt => "SRT" | json => "JSON" end.

(** [downloadResult(format)]: [dl] is the id of the toast it opens and
    [blob] the outcome of [api.downloadResult]. *)
Definition downloadResult (fmt : DownloadFormat) (dl : ToastId)
    (blob : Outcome Blob) : M unit :=
  fun h =>
    (match TranscriptionState.taskId (transcriptionState h) with
     | Some tk =>
         if truthy_str (Some tk) then
           emit (ToastLoading None (formatUpper fmt ++ " indiriliyor...")) ;;
           emit (ApiDownloadResult tk fmt) ;;
           match blob with
           | Resolved _ =>
               emit (SaveAs ("transcript." ++ formatName fmt)) ;;
               emit (ToastSuccess (Some dl) "İndirme tamamlandı")
           | Rejected e =>
               emit (ToastError (Some dl) (errorMessage e "İndirme başarısız"))
           end
         else emit (ToastError None "İndirilebilecek transcription sonucu yok")
     | None => emit (ToastError None "İndirilebilecek transcription sonucu yok")
     end) h.

(** [transcriptionState.result?.text] *)
Definition resultText (s : TranscriptionState.t) : option string :=
  match TranscriptionState.result s with
  | Some r => TranscriptionResponse.text r
  | None => None
  end.

(** [copyToClipboard()]: [written] is the outcome of
    [navigator.clipboard.writeText]. *)
Definition copyToClipboard (written : Outcome unit) : M unit :=
  fun h =>
    (match resultText (transcriptionState h) with
     | Some t =>
         if truthy_str (Some t) then
           emit (ClipboardWriteText t) ;;
           match written with
           | Resolved _ => emit (ToastSuccess None "Metin kopyalandı")
           | Rejected _ => emit (ToastError None "Kopyalama başarısız")
           end
         else emit (ToastError None "Kopyalanacak metin yok")
     | None => emit (ToastError None "Kopyalanacak metin yok")
     end) h.

(** Stop the polling loop, close the socket and dismiss the toast that
    the references hold, and clear the references. *)
Definition stopPolling : M unit :=
  l <- getStopPollingRef ;;
  match l with
  | Some id => emit (StopPolling id) ;; setStopPollingRef None
  | None => ret tt
  end.

Definition closeWebSocket : M unit :=
  w <- getWsRef ;;
  match w with
  | Some id => emit (WsClose id) ;; setWsRef None
  | None => ret tt
  end.

Definition dismissToast : M unit :=
  t <- getToastIdRef ;;
  match t with
  | Some id => emit (ToastDismiss id) ;; setToastIdRef None
  | None => ret tt
  end.

(** [cancel()], with the [uploadState] and [transcriptionState] that its
    closure captured. *)
Definition cancelSeen (seenU : UploadState.t) (seenT : TranscriptionState.t)
    : M unit :=
  match UploadState.file seenU with
  | Some f =>
      when (UploadState.uploading seenU)
        (emit (ApiCancelUpload (name f)) ;;
         setUploadState (fun prev =>
           UploadState.set_error (Some "İptal edildi")
             (UploadState.set_uploading false prev)))
  | None => ret tt
  end ;;
  stopPolling ;;
  closeWebSocket ;;
  dismissToast ;;
  when (TaskStatus_eqb (TranscriptionState.status seenT) processing)
    (setTranscriptionState (fun prev =>
       TranscriptionState.set_error
         (Some "İşlem kullanıcı tarafından iptal edildi")
         (TranscriptionState.set_status failed prev))).

(** [cancel()] called from the current render. *)
Definition cancel : M unit :=
  fun h => cancelSeen (uploadState h) (transcriptionState h) h.

(** [reset()] *)
Definition reset : M unit :=
  fun h =>
    (when (UploadState.uploading (uploadState h)
           || TaskStatus_eqb (TranscriptionState.status (transcriptionState h))
                             processing)
       cancel ;;
     setUploadState (fun _ => UploadState.mk None false 0 None) ;;
     setTranscriptionState (fun _ =>
       TranscriptionState.mk None pending 0 None None None None) ;;
     setFileInfo None ;;
     setUploadedFile None ;;
     stopPolling ;;
     closeWebSocket ;;
     dismissToast) h.

End Operations.

(** ** The polling loop of [TranscriptionAPI.pollTaskStatus]

    The loop is a closure over the flag [stopped]. At any time it has at
    most one [getTaskStatus] request in flight or one [setTimeout(poll, d)]
    pending. The environment drives it with four events: the request in
    flight resolves or rejects, the pending timer fires, or the caller
    invokes the stop function that [pollTaskStatus] returned. *)

Module Poll.

Record Loop := mk {
  interval : N;
  stopped : bool;
  (** a [getTaskStatus] request is awaited *)
  awaiting : bool;
  (** the delay of the pending [setTimeout(poll, delay)] *)
  timer : option N;
  (** the number of [getTaskStatus] calls issued so far *)
  requests : nat;
  (** the arguments of the [onUpdate] calls so far, oldest first *)
  delivered : list TranscriptionResponse.t
}.

Inductive Event :=
| Resolve (response : TranscriptionResponse.t)
| Reject
| Fire
| Stop.

(** [response.status === 'completed' || response.status === 'failed'] *)
Definition isTerminal (s : TaskStatus) : bool :=
  match s with
  | completed | failed => true
  | _ => false
  end.

(** [poll()] up to its [await]: return if stopped, else issue the
    request. *)
Definition poll (l : Loop) : Loop :=
  if stopped l then l
  else mk (interval l) (stopped l) true (timer l) (S (requests l))
          (delivered l).

(** [poll()] after its [await] resolved with [response]. *)
Definition resolved (response : TranscriptionResponse.t) (l : Loop) : Loop :=
  if isTerminal (TranscriptionResponse.status response) then
    mk (interval l) true false (timer l) (requests l)
       (delivered l ++ [response])
  else
    mk (interval l) (stopped l) false (Some (interval l)) (requests l)
       (delivered l ++ [response]).

(** The [catch] block of [poll()]. *)
Definition rejected (l : Loop) : Loop :=
  mk (interval l) (stopped l) false (Some (interval l * 2)%N) (requests l)
     (delivered l).

(** The function that [pollTaskStatus] returns. *)
Definition stop (l : Loop) : Loop :=
  mk (interval l) true (awaiting l) (timer l) (requests l) (delivered l).

(** [pollTaskStatus(taskId, onUpdate, interval)] up to its [return]. *)
Definition pollTaskStatus (interval : N) : Loop :=
  poll (mk interval false false None 0 []).

(** One event; an event that cannot occur in [l] (a response without a
    request, a timer that was never set) leaves it as it is. *)
Definition step (l : Loop) (e : Event) : Loop :=
  match e with
  | Resolve r => if awaiting l then resolved r l else l
  | Reject => if awaiting l then rejected l else l
  | Fire =>
      match timer l with
      | Some _ =>
          poll (mk (interval l) (stopped l) (awaiting l) None (requests l)
                   (delivered l))
      | None => l
      end
  | Stop => stop l
  end.

Definition run (l : Loop) (es : list Event) : Loop := fold_left step es l.


End Poll.

(** Shorthands for the fields of the job state of a hook. *)
Definition jobStatus (h : Hook) : TaskStatus :=
  TranscriptionState.status (transcriptionState h).
Definition jobProgress (h : Hook) : Q :=
  TranscriptionState.progress (transcriptionState h).
Definition jobResult (h : Hook) : option TranscriptionResponse.t :=
  TranscriptionState.result (transcriptionState h).
Definition jobError (h : Hook) : option string :=
  TranscriptionState.error (transcriptionState h).
Definition jobTaskId (h : Hook) : option string :=
  TranscriptionState.taskId (transcriptionState h).

(** ** The stream of updates that reaches the hook *)

Inductive Update :=
| FromPoll (update : TranscriptionResponse.t) (rnd : Q)
| FromPush (m : WsMessage).

(** The handler that an update runs. *)
Definition deliver (u : Update) : M unit :=
  match u with
  | FromPoll update rnd => onUpdate update rnd
  | FromPush m => onMessage m
  end.

(** The job state after an update, as the updaters compute it. *)
Definition applyUpdate (u : Update) (prev : TranscriptionState.t)
    : TranscriptionState.t :=
  match u with
  | FromPoll update rnd => applyPoll update rnd prev
  | FromPush m => applyPush m prev
  end.

(** The hook after a list of updates, delivered in order. *)
Definition deliverAll (us : list Update) (h : Hook) : Hook :=
  fold_left (fun h' u => stateOf (deliver u h')) us h.

(** The status that an update writes, if it writes one. *)
Definition carriedStatus (u : Update) : option TaskStatus :=
  match u with
  | FromPoll update _ => Some (TranscriptionResponse.status update)
  | FromPush (MsgStatus d) => Some (sd_status d)
  | FromPush (MsgResult _) => Some completed
  | FromPush (MsgError _) => Some failed
  | FromPush (MsgProgress _) | FromPush MsgOther => None
  end.

(** The position of a status in [Pending < Uploading < Processing <
    {Completed, Failed}]; [TaskStatus] has no value for uploading. *)
Definition phaseRank (s : TaskStatus) : nat :=
  match s with
  | pending => 0
  | processing => 2
  | completed | failed => 3
  end.

(** A list of statuses that never steps back in the phase order. *)
Fixpoint ascending (l : list TaskStatus) : Prop :=
  match l with
  | a :: (b :: _) as l' => (phaseRank a <= phaseRank b)%nat /\ ascending l'
  | _ => True
  end.

(** The statuses the job state goes through, the current one first. *)
Fixpoint phases (us : list Update) (h : Hook) : list TaskStatus :=
  jobStatus h ::
  match us with
  | [] => []
  | u :: us' => phases us' (stateOf (deliver u h))
  end.

(** The statuses written by a list of updates, in order. *)
Fixpoint carried (us : list Update) : list TaskStatus :=
  match us with
  | [] => []
  | u :: us' =>
      match carriedStatus u with
      | Some st => st :: carried us'
      | None => carried us'
      end
  end.

(** [Completed => result != null] and [Failed => error != null]. *)
Definition invariant (s : TranscriptionState.t) : Prop :=
  (TranscriptionState.status s = completed ->
   TranscriptionState.result s <> None) /\
  (TranscriptionState.status s = failed ->
   TranscriptionState.error s <> None).


(** ** Sample values: a session started on a fresh hook *)

Definition sampleOptions : TranscriptionRequest :=
  {| model_size := Some "base"; language := Some "tr";
     apply_vad := Some true; normalize_audio := Some true |}.

Definition sampleProcessing : TranscriptionResponse.t :=
  TranscriptionResponse.mk "t1" processing None None "2024-01-01T00:00:00".

Definition sampleCompleted : TranscriptionResponse.t :=
  TranscriptionResponse.mk "t1" completed (Some "merhaba") None
    "2024-01-01T00:00:00".

Definition sampleFailed : TranscriptionResponse.t :=
  TranscriptionResponse.mk "t1" failed None (Some "model error")
    "2024-01-01T00:00:00".

(** The hook after [startTranscription] succeeded on a fresh hook: the
    job is processing, loop 1 polls and socket 1 is open. *)
Definition startedHook : Hook :=
  stateOf (startTranscription 2000 "f1" sampleOptions 1%positive
             (Resolved sampleProcessing) 1%nat (Resolved 1%nat) initialHook).

(** The same after a first poll response with status processing, drawn
    at [Math.random() = 1/2]: the progress shown is 50. *)
Definition polledHook : Hook :=
  stateOf (deliver (FromPoll sampleProcessing (1 # 2)) startedHook).

(** The same after a poll response with status completed. *)
Definition completedHook : Hook :=
  stateOf (deliver (FromPoll sampleCompleted 0) polledHook).

(** ** The computed values that the hook returns *)

Definition isProcessing (h : Hook) : bool :=
  UploadState.uploading (uploadState h)
  || TaskStatus_eqb (jobStatus h) processing.

Definition isComplete (h : Hook) : bool :=
  TaskStatus_eqb (jobStatus h) completed.

(** [!!uploadState.error || transcriptionState.status === 'failed'] *)
Definition hasError (h : Hook) : bool :=
  truthy_str (UploadState.error (uploadState h))
  || TaskStatus_eqb (jobStatus h) failed.

(** The [onClose] handler given to [api.connectWebSocket]. *)
Definition onClose : M unit := setWsRef None.

(** The cleanup of the [useEffect] of the hook, run on unmount: it calls
    what the references hold and leaves the references as they are. *)
Definition unmount : M unit :=
  l <- getStopPollingRef ;;
  match l with
  | Some id => emit (StopPolling id)
  | None => ret tt
  end ;;
  w <- getWsRef ;;
  match w with
  | Some id => emit (WsClose id)
  | None => ret tt
  end ;;
  t <- getToastIdRef ;;
  match t with
  | Some id => emit (ToastDismiss id)
  | None => ret tt
  end.

(** ** The asynchronous operations, piece by piece

    [uploadFile] and [startTranscription] suspend at each [await]; other
    handlers may run before they resume. Each piece below is the code
    between two suspension points. *)

Section Pieces.

Variable pollingInterval : N.

(** [uploadFile] up to [await api.uploadFile(...)]. *)
Definition uploadBegin (file : File) (tid : ToastId) : M unit :=
  setUploadState (fun _ => UploadState.mk (Some file) true 0 None) ;;
  emit (ToastLoading None "Dosya yükleniyor...") ;;
  setToastIdRef (Some tid) ;;
  emit (ApiUploadFile file).

(** One call of the progress callback. *)
Definition uploadProgressed (p : Q) : M unit :=
  setUploadState (UploadState.set_progress p).

(** [uploadFile] from the resolution of [api.uploadFile] up to
    [await api.getFileInfo(...)]. *)
Definition uploadResolved (response : FileUploadResponse) : M unit :=
  setUploadedFile (Some response) ;;
  setUploadState (fun prev =>
    UploadState.set_progress 100 (UploadState.set_uploading false prev)) ;;
  t <- getToastIdRef ;;
  emit (ToastSuccess t "Dosya yüklendi") ;;
  setToastIdRef None ;;
  emit (ApiGetFileInfo (file_id response)).

(** [uploadFile] from the resolution of [api.getFileInfo] to its
    [return]. *)
Definition fileInfoResolved (i : FileInfo) (response : FileUploadResponse)
    : M (option FileUploadResponse) :=
  setFileInfo (Some i) ;; ret (Some response).

(** [startTranscription] up to [await api.startTranscription(...)]. *)
Definition startBegin (fileId : string) (options : TranscriptionRequest)
    (tid : ToastId) : M unit :=
  setTranscriptionState (fun _ =>
    TranscriptionState.mk None processing 0 None None None None) ;;
  emit (ToastLoading None "Transcription başlatılıyor...") ;;
  setToastIdRef (Some tid) ;;
  emit (ApiStartTranscription fileId options).

(** [startTranscription] from the resolution of the submission to its
    end. *)
Definition startResolved (response : TranscriptionResponse.t) (loop : LoopId)
    (ws : Outcome SocketId) : M unit :=
  setTranscriptionState (fun prev =>
    TranscriptionState.set_status (TranscriptionResponse.status response)
      (TranscriptionState.set_taskId
         (Some (TranscriptionResponse.task_id response)) prev)) ;;
  t <- getToastIdRef ;;
  emit (ToastLoading t "İşlem devam ediyor...") ;;
  emit (ApiPollTaskStatus (TranscriptionResponse.task_id response)
          pollingInterval loop) ;;
  setStopPollingRef (Some loop) ;;
  emit (ApiConnectWebSocket (TranscriptionResponse.task_id response)) ;;
  match ws with
  | Resolved sock => setWsRef (Some sock)
  | Rejected _ => ret tt
  end.

(** The outer [catch] block of [startTranscription]. *)
Definition startRejected (e : JsError) : M unit :=
  setTranscriptionState (fun prev =>
    TranscriptionState.set_error
      (Some (errorMessage e "Transcription başlatılamadı"))
      (TranscriptionState.set_status failed prev)) ;;
  t <- getToastIdRef ;;
  emit (ToastError t (errorMessage e "Transcription başlatılamadı")) ;;
  setToastIdRef None ;;
  emit (OnError e).

(** What can happen to the hook, one handler run at a time. *)
Inductive HookEvent :=
| UploadBegins (file : File) (tid : ToastId)
| UploadProgresses (p : Q)
| UploadResolves (response : FileUploadResponse)
| FileInfoResolves (i : FileInfo) (response : FileUploadResponse)
| UploadRejects (e : JsError)
| StartBegins (fileId : string) (options : TranscriptionRequest) (tid : ToastId)
| StartResolves (response : TranscriptionResponse.t) (loop : LoopId)
                (ws : Outcome SocketId)
| StartRejects (e : JsError)
| UpdateArrives (u : Update)
| SocketCloses
| CancelCalled
| ResetCalled
| DownloadCalled (fmt : DownloadFormat) (dl : ToastId) (blob : Outcome Blob)
| CopyCalled (written : Outcome unit).

Definition handle (ev : HookEvent) : M unit :=
  match ev with
  | UploadBegins file tid => uploadBegin file tid
  | UploadProgresses p => uploadProgressed p
  | UploadResolves response => uploadResolved response
  | FileInfoResolves i response => fileInfoResolved i response ;; ret tt
  | UploadRejects e => uploadFailed e ;; ret tt
  | StartBegins fileId options tid => startBegin fileId options tid
  | StartResolves response loop ws => startResolved response loop ws
  | StartRejects e => startRejected e
  | UpdateArrives u => deliver u
  | SocketCloses => onClose
  | CancelCalled => cancel
  | ResetCalled => reset
  | DownloadCalled fmt dl blob => downloadResult fmt dl blob
  | CopyCalled written => copyToClipboard written
  end.

(** The hook after a list of events, and the effects performed. *)
Fixpoint handleAll (evs : list HookEvent) (h : Hook) : Hook * list Effect :=
  match evs with
  | [] => (h, [])
  | ev :: evs' =>
      let '(_, h1, e1) := handle ev h in
      let '(h2, e2) := handleAll evs' h1 in
      (h2, (e1 ++ e2)%list)
  end.

End Pieces.

(** A transfer is only ever marked as running together with its file. *)
Definition uploadingHasFile (h : Hook) : Prop :=
  UploadState.uploading (uploadState h) = true ->
  UploadState.file (uploadState h) <> None.

(** ** The upload card and the page that use the hook *)

(** [handleUpload] of [FileUploadCard]: the file handed to
    [onFileSelect], if any. *)
Definition handleUpload (selectedFile : option File) (processingNow : bool)
    : option File :=
  match selectedFile with
  | Some f => if negb processingNow then Some f else None
  | None => None
  end.

(** The options that [handleFileSelect] of the page passes to
    [processFile]. *)
Definition pageOptions (selectedModel : string) : TranscriptionRequest :=
  {| model_size := Some selectedModel; language := Some "tr";
     apply_vad := Some true; normalize_audio := Some true |}.

(** The events that store loop [l], or socket [w], in a reference. *)
Definition startsLoop (l : LoopId) (ev : HookEvent) : Prop :=
  match ev with
  | StartResolves _ loop _ => loop = l
  | _ => False
  end.

Definition opensSocket (w : SocketId) (ev : HookEvent) : Prop :=
  match ev with
  | StartResolves _ _ (Resolved sock) => sock = w
  | _ => False
  end.

(** ** Runs of the polling loop *)

(** [n] failed attempts in a row: the request rejects, the timer fires. *)
Fixpoint failedAttempts (n : nat) : list Poll.Event :=
  match n with
  | O => []
  | S n' => Poll.Reject :: Poll.Fire :: failedAttempts n'
  end.

Definition nonTerminal (r : TranscriptionResponse.t) : Prop :=
  Poll.isTerminal (TranscriptionResponse.status r) = false.

(** What the loop keeps about terminal responses. *)
Definition terminalLast (l : Poll.Loop) : Prop :=
  Forall nonTerminal (Poll.delivered l) \/
  (Poll.stopped l = true /\ Poll.awaiting l = false /\
   Forall nonTerminal (removelast (Poll.delivered l))).

(** What the loop keeps about its single activity. *)
Definition oneActivity (l : Poll.Loop) : Prop :=
  (Poll.awaiting l = true -> Poll.timer l = None) /\
  (Poll.stopped l = false ->
   Poll.awaiting l = true \/ Poll.timer l <> None) /\
  (length (Poll.delivered l) + (if Poll.awaiting l then 1 else 0)
   <= Poll.requests l)%nat.

(** * Properties *)

(** ** Equality of statuses *)

Lemma TaskStatus_eqb_spec a b : reflect (a = b) (TaskStatus_eqb a b).
Proof. destruct a, b; constructor; congruence. Qed.

(** ** The update callbacks *)

Ltac run_handler :=
  unfold stateOf, effectsOf, valueOf; cbn -[Qmult Qplus String.append].

(** Besides the job state, a poll update touches only the toast
    reference. *)
Lemma onUpdate_job (update : TranscriptionResponse.t) (rnd : Q) (h : Hook) :
  transcriptionState (stateOf (onUpdate update rnd h))
  = applyPoll update rnd (transcriptionState h).
Proof.
  unfold onUpdate.
  destruct (TranscriptionResponse.status update) eqn:E; run_handler;
    rewrite ?E; reflexivity.
Qed.

Lemma onMessage_job (m : WsMessage) (h : Hook) :
  transcriptionState (stateOf (onMessage m h))
  = applyPush m (transcriptionState h).
Proof.
  destruct m as [d | d | d | err |]; try reflexivity.
  unfold onMessage. run_handler.
  destruct (toastIdRef h); reflexivity.
Qed.

Lemma deliver_job (u : Update) (h : Hook) :
  transcriptionState (stateOf (deliver u h))
  = applyUpdate u (transcriptionState h).
Proof.
  destruct u; [apply onUpdate_job | apply onMessage_job].
Qed.

(** An update writes the status it carries, whatever the current one. *)
Lemma applyUpdate_status (u : Update) (prev : TranscriptionState.t) :
  TranscriptionState.status (applyUpdate u prev)
  = match carriedStatus u with
    | Some st => st
    | None => TranscriptionState.status prev
    end.
Proof.
  destruct u as [update rnd | [d | d | d | err |]]; reflexivity.
Qed.

Lemma deliver_status (u : Update) (h : Hook) :
  jobStatus (stateOf (deliver u h))
  = match carriedStatus u with
    | Some st => st
    | None => jobStatus h
    end.
Proof.
  unfold jobStatus. rewrite deliver_job. apply applyUpdate_status.
Qed.

Lemma phases_head (us : list Update) (h : Hook) :
  exists tl, phases us h = jobStatus h :: tl.
Proof. destruct us; eexists; reflexivity. Qed.

Lemma ascending_cons (a b : TaskStatus) (l : list TaskStatus) :
  ascending (a :: b :: l) <->
  (phaseRank a <= phaseRank b)%nat /\ ascending (b :: l).
Proof. reflexivity. Qed.

(** The phase trace steps back exactly where the carried statuses do. *)
Lemma phases_ascending (us : list Update) :
  forall h : Hook,
    ascending (jobStatus h :: carried us) -> ascending (phases us h).
Proof.
  induction us as [| u us IH]; intros h Hc.
  - exact I.
  - cbn [phases].
    destruct (phases_head us (stateOf (deliver u h))) as [tl Htl].
    specialize (IH (stateOf (deliver u h))).
    rewrite Htl in *. rewrite deliver_status in *.
    cbn [carried] in Hc.
    destruct (carriedStatus u) as [st |].
    + apply ascending_cons in Hc. destruct Hc as [Hle Hrest].
      apply ascending_cons. split; [exact Hle | exact (IH Hrest)].
    + apply ascending_cons. split; [apply Nat.le_refl | exact (IH Hc)].
Qed.

Lemma ascending_head_le (l : list TaskStatus) :
  forall a : TaskStatus,
    ascending (a :: l) ->
    forall x, In x l -> (phaseRank a <= phaseRank x)%nat.
Proof.
  induction l as [| b l IH]; intros a Ha x Hx.
  - destruct Hx.
  - apply ascending_cons in Ha. destruct Ha as [Hab Hb].
    destruct Hx as [<- | Hx]; [exact Hab |].
    apply Nat.le_trans with (phaseRank b); [exact Hab | exact (IH b Hb x Hx)].
Qed.

(** The final status is the last entry of the phase trace. *)
Lemma deliverAll_in_phases (us : list Update) :
  forall h : Hook, In (jobStatus (deliverAll us h)) (phases us h).
Proof.
  induction us as [| u us IH]; intros h.
  - left. reflexivity.
  - right. apply (IH (stateOf (deliver u h))).
Qed.

(** ** C1: order of phases and of progress *)

(** C1, counterexample. With the job processing at progress 50, a push
    status frame that carries [pending] sets the status back to pending,
    and a push progress frame that carries 5 sets the progress back to 5 in
    the same phase: neither update is dropped. *)
Lemma phase_and_progress_regress :
  let back := FromPush (MsgStatus {| sd_status := pending; sd_progress := None |}) in
  let stale := FromPush (MsgProgress {| pd_progress := Some 5;
                                        pd_stage := None; pd_message := None |}) in
  jobStatus polledHook = processing /\
  jobProgress polledHook == 50 /\
  (phaseRank (jobStatus (stateOf (deliver back polledHook)))
   < phaseRank (jobStatus polledHook))%nat /\
  jobStatus (stateOf (deliver stale polledHook)) = jobStatus polledHook /\
  jobProgress (stateOf (deliver stale polledHook)) < jobProgress polledHook /\
  stateOf (deliver back polledHook) <> polledHook /\
  stateOf (deliver stale polledHook) <> polledHook.
Proof.
  cbv zeta. repeat split; try reflexivity; try (vm_compute; lia);
    intro H; apply (f_equal transcriptionState) in H; vm_compute in H;
    discriminate H.
Qed.

(** C1, amended. Updates are applied last write wins. After an update the
    status is the one the update carries (the status of a poll response or
    of a status frame, completed for a result frame, failed for an error
    frame) and is unchanged by a progress frame or a frame of unknown
    type; a progress frame sets the progress to the value it carries, or
    to 0 when it carries none. So along an interleaving whose carried
    statuses never step back from the current status, the phase never
    steps back either, at any step and at the end. *)
Theorem updates_last_write_wins (us : list Update) (h : Hook)
    (Hus : ascending (jobStatus h :: carried us)) :
  (forall u : Update,
      jobStatus (stateOf (deliver u h))
      = match carriedStatus u with
        | Some st => st
        | None => jobStatus h
        end) /\
  (forall d : ProgressData,
      jobProgress (stateOf (deliver (FromPush (MsgProgress d)) h))
      = or_num (pd_progress d) 0) /\
  ascending (phases us h) /\
  (phaseRank (jobStatus h) <= phaseRank (jobStatus (deliverAll us h)))%nat.
Proof.
  split; [intro u; apply deliver_status |].
  split.
  { intro d. unfold jobProgress. rewrite deliver_job. reflexivity. }
  pose proof (phases_ascending us h Hus) as Hasc.
  split; [exact Hasc |].
  pose proof (deliverAll_in_phases us h) as Hin.
  destruct us as [| u us].
  - apply Nat.le_refl.
  - cbn [phases] in Hasc, Hin. destruct Hin as [Heq | Hin].
    + rewrite <- Heq. apply Nat.le_refl.
    + exact (ascending_head_le _ _ Hasc _ Hin).
Qed.

Lemma updates_last_write_wins_witness :
  ascending (phases [FromPoll sampleProcessing (1 # 2);
                     FromPush (MsgResult (Some sampleCompleted))] startedHook).
Proof.
  apply (updates_last_write_wins
           [FromPoll sampleProcessing (1 # 2);
            FromPush (MsgResult (Some sampleCompleted))] startedHook).
  vm_compute. lia.
Defined.

(** ** C2: updates after a terminal status *)

(** C2, counterexample. The job has completed through a poll response and
    holds its result; a push error frame then sets the status to failed
    and writes the error, and a later poll response replaces the result. *)
Lemma terminal_state_overwritten :
  let late := FromPush (MsgError (Some "connection lost")) in
  let again := FromPoll sampleProcessing (1 # 2) in
  jobStatus completedHook = completed /\
  jobResult completedHook = Some sampleCompleted /\
  jobError completedHook = None /\
  jobStatus (stateOf (deliver late completedHook)) = failed /\
  jobError (stateOf (deliver late completedHook)) = Some "connection lost" /\
  jobStatus (stateOf (deliver again completedHook)) = processing /\
  jobResult (stateOf (deliver again completedHook)) = Some sampleProcessing.
Proof. cbv zeta. repeat split; reflexivity. Qed.

(** C2, amended. Once the status is terminal, a push progress frame and a
    frame of unknown type leave status, result and error unchanged. Every
    other update overwrites the fields it carries and keeps the others: a
    poll response writes its status and itself as the result and keeps the
    error; a status frame writes its status and keeps result and error; a
    result frame writes completed and its data as the result and keeps the
    error; an error frame writes failed and its error and keeps the
    result. *)
Theorem terminal_update_effect (h : Hook) (u : Update)
    (Hterm : Poll.isTerminal (jobStatus h) = true) :
  let h' := stateOf (deliver u h) in
  match u with
  | FromPoll update _ =>
      jobStatus h' = TranscriptionResponse.status update /\
      jobResult h' = Some update /\
      jobError h' = jobError h
  | FromPush (MsgProgress _) | FromPush MsgOther =>
      jobStatus h' = jobStatus h /\
      jobResult h' = jobResult h /\
      jobError h' = jobError h
  | FromPush (MsgStatus d) =>
      jobStatus h' = sd_status d /\
      jobResult h' = jobResult h /\
      jobError h' = jobError h
  | FromPush (MsgResult d) =>
      jobStatus h' = completed /\
      jobResult h' = d /\
      jobError h' = jobError h
  | FromPush (MsgError err) =>
      jobStatus h' = failed /\
      jobResult h' = jobResult h /\
      jobError h' = err
  end.
Proof.
  cbv zeta. unfold jobStatus, jobResult, jobError. rewrite deliver_job.
  destruct u as [update rnd | [d | d | d | err |]]; repeat split.
Qed.

Lemma terminal_update_effect_witness :
  Poll.isTerminal (jobStatus completedHook) = true /\
  jobStatus (stateOf (deliver (FromPush (MsgError None)) completedHook)) = failed /\
  jobResult (stateOf (deliver (FromPush (MsgError None)) completedHook))
  = jobResult completedHook /\
  jobError (stateOf (deliver (FromPush (MsgError None)) completedHook)) = None.
Proof.
  split; [reflexivity |].
  apply (terminal_update_effect completedHook (FromPush (MsgError None))).
  reflexivity.
Defined.

(** ** C4: result and error of a terminal status *)

(** C4, counterexample. On the started session, where the invariant
    holds, a poll response with status failed sets the status to failed
    and leaves the error of the job state absent; a push status frame
    that carries [completed] sets the status to completed with no
    result. *)
Lemma invariant_broken :
  let done := FromPush (MsgStatus {| sd_status := completed; sd_progress := None |}) in
  invariant (transcriptionState startedHook) /\
  jobStatus (stateOf (deliver (FromPoll sampleFailed 0) startedHook)) = failed /\
  jobError (stateOf (deliver (FromPoll sampleFailed 0) startedHook)) = None /\
  ~ invariant (transcriptionState (stateOf (deliver (FromPoll sampleFailed 0) startedHook))) /\
  jobStatus (stateOf (deliver done startedHook)) = completed /\
  jobResult (stateOf (deliver done startedHook)) = None /\
  ~ invariant (transcriptionState (stateOf (deliver done startedHook))).
Proof.
  cbv zeta. repeat split; try reflexivity.
  - cbn. discriminate.
  - cbn. discriminate.
  - intros [_ H]. apply H; reflexivity.
  - intros [H _]. apply H; reflexivity.
Qed.

(** The job state after [cancel()]: failed with the cancellation message
    when the captured status is processing, else untouched. *)
Lemma cancelSeen_job (seenU : UploadState.t) (seenT : TranscriptionState.t)
    (h : Hook) :
  transcriptionState (stateOf (cancelSeen seenU seenT h))
  = if TaskStatus_eqb (TranscriptionState.status seenT) processing
    then TranscriptionState.set_error
           (Some "İşlem kullanıcı tarafından iptal edildi")
           (TranscriptionState.set_status failed (transcriptionState h))
    else transcriptionState h.
Proof.
  unfold cancelSeen, stopPolling, closeWebSocket, dismissToast.
  destruct h as [us ts fi uf [l |] [w |] [t |]];
    destruct (UploadState.file seenU), (UploadState.uploading seenU),
      (TaskStatus_eqb (TranscriptionState.status seenT) processing);
    reflexivity.
Qed.

Lemma cancel_job (h : Hook) :
  transcriptionState (stateOf (cancel h))
  = if TaskStatus_eqb (jobStatus h) processing
    then TranscriptionState.set_error
           (Some "İşlem kullanıcı tarafından iptal edildi")
           (TranscriptionState.set_status failed (transcriptionState h))
    else transcriptionState h.
Proof. unfold cancel. apply cancelSeen_job. Qed.

(** C4, amended. The invariant [Completed => result != null] and
    [Failed => error != null] is kept by a push progress frame and by a
    frame of unknown type, by a poll response whose status is not failed,
    by a push status frame whose status is not terminal, by a push result
    frame that carries its data, by a push error frame that carries an
    error, by [cancel] and by a failed submission. *)
Theorem invariant_kept (pollingInterval : N) (h : Hook)
    (Hinv : invariant (transcriptionState h)) :
  (forall d, invariant (transcriptionState
                          (stateOf (deliver (FromPush (MsgProgress d)) h)))) /\
  invariant (transcriptionState (stateOf (deliver (FromPush MsgOther) h))) /\
  (forall update rnd,
      TranscriptionResponse.status update <> failed ->
      invariant (transcriptionState
                   (stateOf (deliver (FromPoll update rnd) h)))) /\
  (forall d,
      Poll.isTerminal (sd_status d) = false ->
      invariant (transcriptionState
                   (stateOf (deliver (FromPush (MsgStatus d)) h)))) /\
  (forall r, invariant (transcriptionState
                          (stateOf (deliver (FromPush (MsgResult (Some r))) h)))) /\
  (forall e, invariant (transcriptionState
                          (stateOf (deliver (FromPush (MsgError (Some e))) h)))) /\
  invariant (transcriptionState (stateOf (cancel h))) /\
  (forall fileId options tid e loop ws,
      invariant (transcriptionState
                   (stateOf (startTranscription pollingInterval fileId options
                               tid (Rejected e) loop ws h)))).
Proof.
  destruct Hinv as [Hres Herr].
  refine (conj _ (conj _ (conj _ (conj _ (conj _ (conj _ (conj _ _)))))));
    intros.
  - rewrite deliver_job. split; cbn; assumption.
  - rewrite deliver_job. split; cbn; assumption.
  - rewrite deliver_job. split; cbn; [discriminate | congruence].
  - rewrite deliver_job. split; cbn; intro E; rewrite E in H; discriminate H.
  - rewrite deliver_job. split; cbn; discriminate.
  - rewrite deliver_job. split; cbn; discriminate.
  - rewrite cancel_job.
    destruct (TaskStatus_eqb (jobStatus h) processing);
      split; cbn; try discriminate; assumption.
  - split; destruct h; cbn; intro E; try discriminate E; discriminate.
Qed.

Lemma invariant_kept_witness :
  invariant (transcriptionState startedHook) /\
  invariant (transcriptionState (stateOf (cancel startedHook))) /\
  jobStatus (stateOf (cancel startedHook)) = failed.
Proof.
  assert (H : invariant (transcriptionState startedHook)).
  { split; cbn; discriminate. }
  split; [exact H |].
  split; [| reflexivity].
  exact (proj1 (proj2 (proj2 (proj2 (proj2 (proj2 (proj2
           (invariant_kept 2000 startedHook H)))))))).
Defined.

(** ** C10: the progress shown after a poll response *)



(** ** C8: [cancel] *)

(** C8. [cancel] is total. Its effect on the job state is the transition
    to failed with the cancellation message when the status is
    processing, and none when the status is pending, completed or failed;
    its effect on the upload state is to mark a transfer in flight as
    cancelled, and none when no transfer is in flight. A second call,
    from a new render or from the same closure, changes nothing, and from
    a new render it performs no effect at all. *)
Theorem cancel_idempotent (h : Hook) :
  let h1 := stateOf (cancel h) in
  stateOf (cancel h1) = h1 /\
  effectsOf (cancel h1) = [] /\
  stateOf (cancelSeen (uploadState h) (transcriptionState h) h1) = h1 /\
  transcriptionState h1
  = (if TaskStatus_eqb (jobStatus h) processing
     then TranscriptionState.set_error
            (Some "İşlem kullanıcı tarafından iptal edildi")
            (TranscriptionState.set_status failed (transcriptionState h))
     else transcriptionState h) /\
  uploadState h1
  = (match UploadState.file (uploadState h) with
     | Some _ =>
         if UploadState.uploading (uploadState h)
         then UploadState.set_error (Some "İptal edildi")
                (UploadState.set_uploading false (uploadState h))
         else uploadState h
     | None => uploadState h
     end) /\
  fileInfo h1 = fileInfo h /\
  uploadedFile h1 = uploadedFile h.
Proof.
  destruct h as [[f u p e] [tk st pr sg ms rs er] fi uf sp ws ti].
  destruct f, u, st, sp, ws, ti; repeat split.
Qed.

(** ** C7: a failed upload *)

(** The progress callback changes the progress of the upload state and
    nothing else. *)
Lemma reportProgress_spec (ps : list Q) :
  forall us ts fi uf sp ws ti,
  exists p,
    reportProgress ps (mkHook us ts fi uf sp ws ti)
    = (tt, mkHook (UploadState.set_progress p us) ts fi uf sp ws ti, []).
Proof.
  induction ps as [| q ps IH]; intros [f u p0 e] ts fi uf sp ws ti.
  - exists p0. reflexivity.
  - destruct (IH (UploadState.set_progress q (UploadState.mk f u p0 e))
               ts fi uf sp ws ti) as [p Hp].
    exists p. cbn [reportProgress]. unfold bind at 1.
    cbn [setUploadState uploadState transcriptionState fileInfo uploadedFile
         stopPollingRef wsRef toastIdRef].
    rewrite Hp. reflexivity.
Qed.

(** C7. When [api.uploadFile] rejects with [e], [uploadFile] returns
    null, sets the error of the upload state to the message of [e] (the
    message of an [APIError], as every rejection of [api.uploadFile] is),
    sets [uploading] to false and leaves the job state and the polling and
    socket references as they were; [processFile] then stops after the
    upload: it ends in the same state with the same effects, which are the
    upload request and its toasts, and so contain no job submission and no
    polling loop. *)
Theorem upload_failure (pollingInterval : N) (h : Hook) (file : File)
    (options : TranscriptionRequest) (tid tid' : ToastId) (ps : list Q)
    (e : JsError) (info : Outcome FileInfo)
    (sub : Outcome TranscriptionResponse.t) (loop : LoopId)
    (ws : Outcome SocketId) :
  let r := uploadFile file tid ps (Rejected e) info h in
  valueOf r = None /\
  UploadState.error (uploadState (stateOf r))
  = Some (errorMessage e "Yükleme başarısız") /\
  (forall m, e = APIError m ->
             UploadState.error (uploadState (stateOf r)) = Some m) /\
  UploadState.uploading (uploadState (stateOf r)) = false /\
  transcriptionState (stateOf r) = transcriptionState h /\
  stopPollingRef (stateOf r) = stopPollingRef h /\
  wsRef (stateOf r) = wsRef h /\
  effectsOf r
  = [ToastLoading None "Dosya yükleniyor..."; ApiUploadFile file;
     ToastError (Some tid) (errorMessage e "Yükleme başarısız"); OnError e] /\
  processFile pollingInterval file options tid ps (Rejected e) info tid' sub
              loop ws h
  = (tt, stateOf r, effectsOf r).
Proof.
  destruct h as [us ts fi uf sp wsr ti].
  destruct (reportProgress_spec ps (UploadState.mk (Some file) true 0 None)
              ts fi uf sp wsr (Some tid)) as [p Hp].
  cbv zeta. unfold processFile, uploadFile, valueOf, stateOf, effectsOf.
  cbn [bind setUploadState emit setToastIdRef].
  cbn [uploadState transcriptionState fileInfo uploadedFile stopPollingRef
       wsRef toastIdRef app].
  unfold bind.
  rewrite Hp.
  cbn -[errorMessage].
  rewrite ?Hp.
  cbn -[errorMessage].
  repeat split.
  intros m ->. reflexivity.
Qed.

Lemma upload_failure_witness :
  UploadState.error
    (uploadState
       (stateOf (uploadFile {| name := "a.wav"; file_size := 10 |} 1%positive
                   [10; 40] (Rejected (APIError "Network error during upload"))
                   (Rejected (OtherError "unused")) initialHook)))
  = Some "Network error during upload".
Proof.
  exact (proj1 (proj2 (proj2
    (upload_failure 2000 initialHook {| name := "a.wav"; file_size := 10 |}
       sampleOptions 1%positive 2%positive [10; 40]
       (APIError "Network error during upload")
       (Rejected (OtherError "unused")) (Rejected (OtherError "unused")) 0%nat
       (Rejected (OtherError "unused")))))
    "Network error during upload" eq_refl).
Defined.

(** ** C9: [downloadResult] and [copyToClipboard] *)

(** C9, counterexample. On the started session the job has a task id and
    no result yet; [downloadResult] does not stop there: it requests the
    artifact and saves what it receives. *)
Lemma download_without_result :
  jobResult startedHook = None /\
  jobTaskId startedHook = Some "t1" /\
  effectsOf (downloadResult txt 7%positive (Resolved "payload") startedHook)
  = [ToastLoading None "TXT indiriliyor..."; ApiDownloadResult "t1" txt;
     SaveAs "transcript.txt"; ToastSuccess (Some 7%positive) "İndirme tamamlandı"].
Proof. repeat split. Qed.

(** C9, amended. [downloadResult] is guarded by the task id and
    [copyToClipboard] by the text of the result: when the task id is
    absent (or empty) [downloadResult] only shows its error toast and
    requests nothing; when the result is absent, or has no text,
    [copyToClipboard] only shows its error toast and writes nothing to the
    clipboard. In every state, both leave the state of the hook
    unchanged. *)
Theorem download_copy_guards (h : Hook) (fmt : DownloadFormat) (dl : ToastId)
    (blob : Outcome Blob) (written : Outcome unit) :
  stateOf (downloadResult fmt dl blob h) = h /\
  stateOf (copyToClipboard written h) = h /\
  (truthy_str (jobTaskId h) = false ->
   effectsOf (downloadResult fmt dl blob h)
   = [ToastError None "İndirilebilecek transcription sonucu yok"]) /\
  (jobResult h = None ->
   effectsOf (copyToClipboard written h)
   = [ToastError None "Kopyalanacak metin yok"]) /\
  (truthy_str (resultText (transcriptionState h)) = false ->
   effectsOf (copyToClipboard written h)
   = [ToastError None "Kopyalanacak metin yok"]).
Proof.
  unfold jobTaskId, jobResult, resultText, downloadResult, copyToClipboard,
    resultText.
  refine (conj _ (conj _ (conj _ (conj _ _)))).
  - destruct (TranscriptionState.taskId (transcriptionState h)) as [tk |];
      [destruct (truthy_str (Some tk)), blob |]; reflexivity.
  - destruct (TranscriptionState.result (transcriptionState h)) as [r |];
      [destruct (TranscriptionResponse.text r) as [t |];
       [destruct (truthy_str (Some t)), written |] |]; reflexivity.
  - destruct (TranscriptionState.taskId (transcriptionState h)) as [tk |];
      [| reflexivity].
    intros ->. reflexivity.
  - intros ->. reflexivity.
  - destruct (TranscriptionState.result (transcriptionState h)) as [r |];
      [| reflexivity].
    destruct (TranscriptionResponse.text r) as [t |]; [| reflexivity].
    intros ->. reflexivity.
Qed.

Lemma download_copy_guards_witness :
  effectsOf (downloadResult srt 3%positive (Resolved "payload") initialHook)
  = [ToastError None "İndirilebilecek transcription sonucu yok"] /\
  effectsOf (copyToClipboard (Resolved tt) initialHook)
  = [ToastError None "Kopyalanacak metin yok"].
Proof.
  split.
  - exact (proj1 (proj2 (proj2
      (download_copy_guards initialHook srt 3%positive (Resolved "payload")
         (Resolved tt)))) eq_refl).
  - exact (proj1 (proj2 (proj2 (proj2
      (download_copy_guards initialHook srt 3%positive (Resolved "payload")
         (Resolved tt))))) eq_refl).
Defined.

(** ** C6: starting a job while one is active *)

(** C6, counterexample. On the started session, where loop 1 polls task
    [t1] and socket 1 is open, a second [startTranscription] is not
    rejected: it replaces the job state by the one of task [t2], starts
    loop 2 and opens a second socket, and stores their handles over the
    old ones; loop 1 is not stopped and socket 1 is not closed. *)
Lemma second_start_not_rejected :
  let second := TranscriptionResponse.mk "t2" processing None None
                  "2024-01-01T00:05:00" in
  let r := startTranscription 2000 "f2" sampleOptions 2%positive
             (Resolved second) 2%nat (Resolved 2%nat) startedHook in
  jobStatus startedHook = processing /\
  jobTaskId startedHook = Some "t1" /\
  stopPollingRef startedHook = Some 1%nat /\
  wsRef startedHook = Some 1%nat /\
  jobTaskId (stateOf r) = Some "t2" /\
  stopPollingRef (stateOf r) = Some 2%nat /\
  wsRef (stateOf r) = Some 2%nat /\
  effectsOf r
  = [ToastLoading None "Transcription başlatılıyor...";
     ApiStartTranscription "f2" sampleOptions;
     ToastLoading (Some 2%positive) "İşlem devam ediyor...";
     ApiPollTaskStatus "t2" 2000 2%nat; ApiConnectWebSocket "t2"].
Proof. cbv zeta. repeat split. Qed.

(** C6, amended. [startTranscription] has no precondition: in every
    state, also one with a polling loop running, it replaces the job
    state by a fresh processing one and, when the submission succeeds,
    records the task id and the status of the response, starts a polling
    loop and opens a socket, and stores their handles in the references in
    place of the previous ones. It stops no loop and closes no socket. *)
Theorem startTranscription_unguarded (pollingInterval : N) (h : Hook)
    (fileId : string) (options : TranscriptionRequest) (tid : ToastId)
    (response : TranscriptionResponse.t) (loop : LoopId) (sock : SocketId) :
  let r := startTranscription pollingInterval fileId options tid
             (Resolved response) loop (Resolved sock) h in
  transcriptionState (stateOf r)
  = TranscriptionState.mk (Some (TranscriptionResponse.task_id response))
      (TranscriptionResponse.status response) 0 None None None None /\
  stopPollingRef (stateOf r) = Some loop /\
  wsRef (stateOf r) = Some sock /\
  uploadState (stateOf r) = uploadState h /\
  effectsOf r
  = [ToastLoading None "Transcription başlatılıyor...";
     ApiStartTranscription fileId options;
     ToastLoading (Some tid) "İşlem devam ediyor...";
     ApiPollTaskStatus (TranscriptionResponse.task_id response)
       pollingInterval loop;
     ApiConnectWebSocket (TranscriptionResponse.task_id response)] /\
  (forall l, ~ In (StopPolling l) (effectsOf r)) /\
  (forall w, ~ In (WsClose w) (effectsOf r)).
Proof.
  cbv zeta. destruct h as [us ts fi uf sp wsr ti].
  repeat split; intros x Hin; cbn in Hin;
    repeat (destruct Hin as [Hin | Hin]; [discriminate Hin |]); exact Hin.
Qed.

(** ** The polling loop *)

Module PollFacts.
Import Poll.







(** Once stopped with no request in flight, nothing is delivered. *)
Lemma stopped_idle_frozen (es : list Event) :
  forall l,
    stopped l = true -> awaiting l = false ->
    delivered (run l es) = delivered l /\ awaiting (run l es) = false.
Proof.
  induction es as [| e es IH]; intros l Hs Ha; [split; [reflexivity | exact Ha] |].
  cbn. fold (run (step l e) es).
  assert (Hstep : stopped (step l e) = true /\ awaiting (step l e) = false
                  /\ delivered (step l e) = delivered l).
  { destruct l as [i s a t n d]. cbn in Hs, Ha. subst s a.
    destruct e as [r | | |]; cbn; unfold poll; cbn;
      [| | destruct t |]; repeat split. }
  destruct Hstep as [Hs' [Ha' Hd]].
  destruct (IH (step l e) Hs' Ha') as [H1 H2].
  split; [rewrite H1; exact Hd | exact H2].
Qed.

(** Once stopped, at most the response of the request in flight is
    still delivered. *)
Lemma stopped_at_most_one (es : list Event) :
  forall l,
    stopped l = true ->
    (length (delivered (run l es)) <= S (length (delivered l)))%nat.
Proof.
  induction es as [| e es IH]; intros l Hs; [cbn; lia |].
  cbn. fold (run (step l e) es).
  destruct (awaiting l) eqn:Ha.
  - destruct e as [r | | |].
    + (* the response in flight: delivered, and then idle *)
      assert (Hs' : stopped (step l (Resolve r)) = true).
      { cbn. rewrite Ha. unfold resolved.
        destruct (isTerminal (TranscriptionResponse.status r));
          [reflexivity | exact Hs]. }
      assert (Ha' : awaiting (step l (Resolve r)) = false).
      { cbn. rewrite Ha. unfold resolved.
        destruct (isTerminal (TranscriptionResponse.status r)); reflexivity. }
      destruct (stopped_idle_frozen es _ Hs' Ha') as [Hd _].
      rewrite Hd. cbn. rewrite Ha. unfold resolved.
      destruct (isTerminal (TranscriptionResponse.status r)); cbn;
        rewrite length_app; cbn; lia.
    + assert (Hs' : stopped (step l Reject) = true)
        by (cbn; rewrite Ha; exact Hs).
      assert (Ha' : awaiting (step l Reject) = false)
        by (cbn; rewrite Ha; reflexivity).
      destruct (stopped_idle_frozen es _ Hs' Ha') as [Hd _].
      rewrite Hd. cbn. rewrite Ha. cbn. lia.
    + assert (Hs' : stopped (step l Fire) = true).
      { cbn. destruct (timer l);
          [unfold poll; cbn; rewrite Hs; reflexivity | exact Hs]. }
      specialize (IH _ Hs').
      assert (Hd : delivered (step l Fire) = delivered l).
      { cbn. destruct (timer l);
          [unfold poll; cbn; rewrite Hs |]; reflexivity. }
      rewrite Hd in IH. exact IH.
    + exact (IH (step l Stop) eq_refl).
  - assert (Hs' : stopped (step l e) = true /\ awaiting (step l e) = false
                  /\ delivered (step l e) = delivered l).
    { destruct l as [i s a t n d]. cbn in Hs, Ha. subst s a.
      destruct e as [r | | |]; cbn; unfold poll; cbn;
        [| | destruct t |]; repeat split. }
    destruct Hs' as [Hs' [Ha' Hd']].
    destruct (stopped_idle_frozen es _ Hs' Ha') as [Hd _].
    rewrite Hd, Hd'. lia.
Qed.

End PollFacts.

(** ** C5: rescheduling after a fetch *)



(** ** C3: the stop handle *)

(** C3, the code at the failing input. A loop is started, so that its
    first status request is in flight, and then stopped. When the request
    resolves, its response is still handed to [onUpdate]. In the hook:
    [cancel] on the started session stops loop 1 and sets the job to
    failed; the update of the response in flight then sets the status
    back to processing. *)
Theorem stale_response_delivered (base : N) (r : TranscriptionResponse.t) :
  let l := Poll.run (Poll.pollTaskStatus base) [Poll.Stop] in
  Poll.stopped l = true /\
  Poll.awaiting l = true /\
  Poll.delivered l = [] /\
  Poll.delivered (Poll.step l (Poll.Resolve r)) = [r] /\
  In (StopPolling 1%nat) (effectsOf (cancel startedHook)) /\
  jobStatus (stateOf (cancel startedHook)) = failed /\
  jobStatus (stateOf (onUpdate sampleProcessing (1 # 2)
                        (stateOf (cancel startedHook)))) = processing.
Proof.
  cbv zeta. refine (conj _ (conj _ (conj _ (conj _ (conj _ (conj _ _)))))).
  - reflexivity.
  - reflexivity.
  - reflexivity.
  - cbn. unfold Poll.resolved.
    destruct (Poll.isTerminal (TranscriptionResponse.status r)); reflexivity.
  - left. reflexivity.
  - reflexivity.
  - reflexivity.
Qed.

(** * Further properties of the hook *)

(** ** [reset] *)

(** From every state, [reset] leaves the hook as it was created: both
    state records are the initial ones and every reference is empty; a
    [processFile] that follows runs as on a fresh hook. On the way it
    releases what the references held exactly as [cancel] does, each
    resource once, although the cleanup is written twice. *)
Theorem reset_restores (h : Hook) :
  stateOf (reset h) = initialHook /\
  effectsOf (reset h) = effectsOf (cancel h) /\
  (forall pollingInterval file options tid ps up info tid' sub loop ws,
      processFile pollingInterval file options tid ps up info tid' sub loop ws
                  (stateOf (reset h))
      = processFile pollingInterval file options tid ps up info tid' sub loop
                    ws initialHook).
Proof.
  assert (Hst : stateOf (reset h) = initialHook).
  { destruct h as [[f u p e] [tk st pr sg ms rs er] fi uf sp ws ti].
    destruct f, u, st, sp, ws, ti; reflexivity. }
  split; [exact Hst |]. split.
  - destruct h as [[f u p e] [tk st pr sg ms rs er] fi uf sp ws ti].
    destruct f, u, st, sp, ws, ti; reflexivity.
  - intros. rewrite Hst. reflexivity.
Qed.

(** ** [uploadFile], [startTranscription] and [processFile] *)

(** [uploadFile] run to its end, in each of its three outcomes; only a
    failed transfer leaves a progress value of the transfer behind. *)
Lemma uploadFile_run (file : File) (tid : ToastId) (ps : list Q)
    (up : Outcome FileUploadResponse) (info : Outcome FileInfo)
    us ts fi uf sp wsr ti :
  exists p,
    uploadFile file tid ps up info (mkHook us ts fi uf sp wsr ti)
    = match up, info with
      | Resolved response, Resolved i =>
          (Some response,
           mkHook (UploadState.mk (Some file) false 100 None) ts (Some i)
                  (Some response) sp wsr None,
           [ToastLoading None "Dosya yükleniyor..."; ApiUploadFile file;
            ToastSuccess (Some tid) "Dosya yüklendi";
            ApiGetFileInfo (file_id response)])
      | Resolved response, Rejected e =>
          (None,
           mkHook (UploadState.mk (Some file) false 100
                     (Some (errorMessage e "Yükleme başarısız")))
                  ts fi (Some response) sp wsr None,
           [ToastLoading None "Dosya yükleniyor..."; ApiUploadFile file;
            ToastSuccess (Some tid) "Dosya yüklendi";
            ApiGetFileInfo (file_id response);
            ToastError None (errorMessage e "Yükleme başarısız"); OnError e])
      | Rejected e, _ =>
          (None,
           mkHook (UploadState.mk (Some file) false p
                     (Some (errorMessage e "Yükleme başarısız")))
                  ts fi uf sp wsr None,
           [ToastLoading None "Dosya yükleniyor..."; ApiUploadFile file;
            ToastError (Some tid) (errorMessage e "Yükleme başarısız");
            OnError e])
      end.
Proof.
  destruct (reportProgress_spec ps (UploadState.mk (Some file) true 0 None)
              ts fi uf sp wsr (Some tid)) as [p Hp].
  exists p. unfold uploadFile.
  cbn [bind setUploadState emit setToastIdRef].
  cbn [uploadState transcriptionState fileInfo uploadedFile stopPollingRef
       wsRef toastIdRef app].
  unfold bind. rewrite Hp.
  destruct up as [response | e]; [destruct info as [i | e] |]; reflexivity.
Qed.

(** When the transfer and the file information request both succeed,
    [uploadFile] returns the response of the transfer, stores it and the
    file information, and leaves the upload state at the file, not
    uploading, progress 100 and no error, whatever progress events came in
    between; the job state and the polling and socket references are not
    touched, and the toast reference is empty again. *)
Theorem upload_success (h : Hook) (file : File) (tid : ToastId) (ps : list Q)
    (response : FileUploadResponse) (i : FileInfo) :
  let r := uploadFile file tid ps (Resolved response) (Resolved i) h in
  valueOf r = Some response /\
  uploadState (stateOf r) = UploadState.mk (Some file) false 100 None /\
  uploadedFile (stateOf r) = Some response /\
  fileInfo (stateOf r) = Some i /\
  toastIdRef (stateOf r) = None /\
  transcriptionState (stateOf r) = transcriptionState h /\
  stopPollingRef (stateOf r) = stopPollingRef h /\
  wsRef (stateOf r) = wsRef h /\
  effectsOf r
  = [ToastLoading None "Dosya yükleniyor..."; ApiUploadFile file;
     ToastSuccess (Some tid) "Dosya yüklendi";
     ApiGetFileInfo (file_id response)].
Proof.
  destruct h as [us ts fi uf sp wsr ti].
  destruct (uploadFile_run file tid ps (Resolved response) (Resolved i)
              us ts fi uf sp wsr ti) as [p Hp].
  cbv zeta. rewrite Hp. repeat split.
Qed.

(** When the transfer succeeds and the file information request then
    fails, [uploadFile] returns null although the file is on the server:
    the response of the transfer is stored and the progress is 100, and
    the upload state carries the message of the failure. The failure
    toast has no id, the upload toast having been turned into the success
    toast. [processFile] ends there and submits nothing. *)
Theorem upload_info_failure (pollingInterval : N) (h : Hook) (file : File)
    (options : TranscriptionRequest) (tid tid' : ToastId) (ps : list Q)
    (response : FileUploadResponse) (e : JsError)
    (sub : Outcome TranscriptionResponse.t) (loop : LoopId)
    (ws : Outcome SocketId) :
  let r := uploadFile file tid ps (Resolved response) (Rejected e) h in
  valueOf r = None /\
  uploadState (stateOf r)
  = UploadState.mk (Some file) false 100
      (Some (errorMessage e "Yükleme başarısız")) /\
  uploadedFile (stateOf r) = Some response /\
  fileInfo (stateOf r) = fileInfo h /\
  transcriptionState (stateOf r) = transcriptionState h /\
  effectsOf r
  = [ToastLoading None "Dosya yükleniyor..."; ApiUploadFile file;
     ToastSuccess (Some tid) "Dosya yüklendi";
     ApiGetFileInfo (file_id response);
     ToastError None (errorMessage e "Yükleme başarısız"); OnError e] /\
  processFile pollingInterval file options tid ps (Resolved response)
              (Rejected e) tid' sub loop ws h
  = (tt, stateOf r, effectsOf r).
Proof.
  destruct h as [us ts fi uf sp wsr ti].
  destruct (uploadFile_run file tid ps (Resolved response) (Rejected e)
              us ts fi uf sp wsr ti) as [p Hp].
  cbv zeta. unfold processFile, bind. rewrite Hp. repeat split.
Qed.

(** When the submission is rejected, [startTranscription] leaves the job
    failed with the message of the error, no task id and no result, and
    starts nothing: no polling loop, no socket, and the two references
    keep what they held. *)
Theorem start_failure (pollingInterval : N) (h : Hook) (fileId : string)
    (options : TranscriptionRequest) (tid : ToastId) (e : JsError)
    (loop : LoopId) (ws : Outcome SocketId) :
  let r := startTranscription pollingInterval fileId options tid (Rejected e)
             loop ws h in
  transcriptionState (stateOf r)
  = TranscriptionState.mk None failed 0 None None None
      (Some (errorMessage e "Transcription başlatılamadı")) /\
  stopPollingRef (stateOf r) = stopPollingRef h /\
  wsRef (stateOf r) = wsRef h /\
  toastIdRef (stateOf r) = None /\
  uploadState (stateOf r) = uploadState h /\
  effectsOf r
  = [ToastLoading None "Transcription başlatılıyor...";
     ApiStartTranscription fileId options;
     ToastError (Some tid) (errorMessage e "Transcription başlatılamadı");
     OnError e].
Proof. cbv zeta. destruct h. repeat split. Qed.

(** When the socket cannot be created, the job is started all the same:
    the state and the effects are those of a start whose socket opens,
    except that the socket reference keeps what it held. *)
Theorem start_without_socket (pollingInterval : N) (h : Hook) (fileId : string)
    (options : TranscriptionRequest) (tid : ToastId)
    (response : TranscriptionResponse.t) (loop : LoopId) (sock : SocketId)
    (e : JsError) :
  let r := startTranscription pollingInterval fileId options tid
             (Resolved response) loop (Rejected e) h in
  let r' := startTranscription pollingInterval fileId options tid
              (Resolved response) loop (Resolved sock) h in
  transcriptionState (stateOf r) = transcriptionState (stateOf r') /\
  stopPollingRef (stateOf r) = Some loop /\
  wsRef (stateOf r) = wsRef h /\
  effectsOf r = effectsOf r' /\
  jobError (stateOf r) = None.
Proof. cbv zeta. destruct h. repeat split. Qed.

(** When everything succeeds, [processFile] submits the file id that the
    transfer returned, and ends with the job carrying the task id and the
    status of the submission response, the loop and the socket stored,
    and the upload at progress 100. *)
Theorem process_success (pollingInterval : N) (h : Hook) (file : File)
    (options : TranscriptionRequest) (tid tid' : ToastId) (ps : list Q)
    (up : FileUploadResponse) (i : FileInfo)
    (response : TranscriptionResponse.t) (loop : LoopId) (sock : SocketId) :
  let r := processFile pollingInterval file options tid ps (Resolved up)
             (Resolved i) tid' (Resolved response) loop (Resolved sock) h in
  stateOf r
  = mkHook (UploadState.mk (Some file) false 100 None)
      (TranscriptionState.mk (Some (TranscriptionResponse.task_id response))
         (TranscriptionResponse.status response) 0 None None None None)
      (Some i) (Some up) (Some loop) (Some sock) (Some tid') /\
  effectsOf r
  = [ToastLoading None "Dosya yükleniyor..."; ApiUploadFile file;
     ToastSuccess (Some tid) "Dosya yüklendi"; ApiGetFileInfo (file_id up);
     ToastLoading None "Transcription başlatılıyor...";
     ApiStartTranscription (file_id up) options;
     ToastLoading (Some tid') "İşlem devam ediyor...";
     ApiPollTaskStatus (TranscriptionResponse.task_id response)
       pollingInterval loop;
     ApiConnectWebSocket (TranscriptionResponse.task_id response)].
Proof.
  destruct h as [us ts fi uf sp wsr ti].
  destruct (uploadFile_run file tid ps (Resolved up) (Resolved i)
              us ts fi uf sp wsr ti) as [p Hp].
  cbv zeta. unfold processFile. unfold bind. rewrite Hp.
  split; reflexivity.
Qed.

(** ** The operations and their pieces *)

Lemma handleAll_app (pollingInterval : N) (evs evs' : list HookEvent) :
  forall h,
    handleAll pollingInterval (evs ++ evs') h
    = let '(h1, e1) := handleAll pollingInterval evs h in
      let '(h2, e2) := handleAll pollingInterval evs' h1 in
      (h2, (e1 ++ e2)%list).
Proof.
  induction evs as [| ev evs IH]; intro h.
  - cbn. destruct (handleAll pollingInterval evs' h). reflexivity.
  - cbn [app handleAll].
    destruct (handle pollingInterval ev h) as [[u h1] e1].
    rewrite IH.
    destruct (handleAll pollingInterval evs h1) as [h2 e2].
    destruct (handleAll pollingInterval evs' h2) as [h3 e3].
    rewrite app_assoc. reflexivity.
Qed.

(** Progress events, one handler run each, do what the callback does
    over the whole list. *)
Lemma progress_events (pollingInterval : N) (ps : list Q) :
  forall h,
    handleAll pollingInterval (map UploadProgresses ps) h
    = (stateOf (reportProgress ps h), effectsOf (reportProgress ps h)).
Proof.
  induction ps as [| p ps IH]; intro h; [reflexivity |].
  destruct h as [us ts fi uf sp wsr ti].
  cbn [map handleAll handle reportProgress].
  unfold uploadProgressed, bind, stateOf, effectsOf.
  cbn [setUploadState uploadState transcriptionState fileInfo uploadedFile
       stopPollingRef wsRef toastIdRef].
  rewrite IH. unfold stateOf, effectsOf.
  destruct (reportProgress ps _) as [[u h1] e1]. reflexivity.
Qed.

(** [uploadFile] run as a whole is its pieces run one after the other
    with nothing in between. *)
Lemma uploadFile_pieces (pollingInterval : N) (file : File) (tid : ToastId)
    (ps : list Q) (up : Outcome FileUploadResponse) (info : Outcome FileInfo)
    (h : Hook) :
  handleAll pollingInterval
    (UploadBegins file tid :: map UploadProgresses ps ++
     match up, info with
     | Resolved r, Resolved i => [UploadResolves r; FileInfoResolves i r]
     | Resolved r, Rejected e => [UploadResolves r; UploadRejects e]
     | Rejected e, _ => [UploadRejects e]
     end) h
  = (stateOf (uploadFile file tid ps up info h),
     effectsOf (uploadFile file tid ps up info h)).
Proof.
  destruct h as [us ts fi uf sp wsr ti].
  cbn [handleAll handle]. unfold uploadFile, uploadBegin.
  cbn [bind setUploadState emit setToastIdRef].
  cbn [uploadState transcriptionState fileInfo uploadedFile stopPollingRef
       wsRef toastIdRef app].
  rewrite handleAll_app, progress_events.
  unfold bind.
  destruct (reportProgress_spec ps (UploadState.mk (Some file) true 0 None)
              ts fi uf sp wsr (Some tid)) as [p Hp].
  rewrite Hp. unfold stateOf, effectsOf. cbn [fst snd].
  destruct up as [r | e]; [destruct info as [i | e] |]; reflexivity.
Qed.

(** [startTranscription] run as a whole is its pieces run one after the
    other with nothing in between. *)
Lemma startTranscription_pieces (pollingInterval : N) (fileId : string)
    (options : TranscriptionRequest) (tid : ToastId)
    (sub : Outcome TranscriptionResponse.t) (loop : LoopId)
    (ws : Outcome SocketId) (h : Hook) :
  handleAll pollingInterval
    [StartBegins fileId options tid;
     match sub with
     | Resolved response => StartResolves response loop ws
     | Rejected e => StartRejects e
     end] h
  = (stateOf (startTranscription pollingInterval fileId options tid sub loop
                ws h),
     effectsOf (startTranscription pollingInterval fileId options tid sub loop
                  ws h)).
Proof.
  destruct h as [us ts fi uf sp wsr ti].
  destruct sub as [response | e]; [destruct ws as [sock | e] |]; reflexivity.
Qed.

(** ** Handlers that run between the pieces *)

Ltac find_in := cbn; repeat (first [left; reflexivity | right]).

(** The hook once a transfer has begun and progress events have come. *)
Lemma upload_in_flight (pollingInterval : N) (file : File) (tid : ToastId)
    (ps : list Q) us ts fi uf sp wsr ti :
  exists p,
    fst (handleAll pollingInterval
           (UploadBegins file tid :: map UploadProgresses ps)
           (mkHook us ts fi uf sp wsr ti))
    = mkHook (UploadState.mk (Some file) true p None) ts fi uf sp wsr
             (Some tid).
Proof.
  destruct (reportProgress_spec ps (UploadState.mk (Some file) true 0 None)
              ts fi uf sp wsr (Some tid)) as [p Hp].
  exists p. cbn [handleAll handle]. unfold uploadBegin.
  cbn [bind setUploadState emit setToastIdRef].
  cbn [uploadState transcriptionState fileInfo uploadedFile stopPollingRef
       wsRef toastIdRef app].
  rewrite progress_events, Hp. reflexivity.
Qed.

(** [cancel] while a transfer is in flight asks the transport to abort
    the transfer registered under the name of the file, dismisses the
    upload toast and marks the upload as cancelled. When the aborted
    transfer then rejects, the [catch] block of [uploadFile] replaces that
    message by the one of the rejection and shows it in a toast of its
    own, the reference being empty by then. *)
Theorem cancel_during_upload (pollingInterval : N) (h : Hook) (file : File)
    (tid : ToastId) (ps : list Q) (e : JsError) :
  let before := fst (handleAll pollingInterval
                       (UploadBegins file tid :: map UploadProgresses ps) h) in
  let mid := stateOf (cancel before) in
  let r := uploadFailed e mid in
  In (ApiCancelUpload (name file)) (effectsOf (cancel before)) /\
  In (ToastDismiss tid) (effectsOf (cancel before)) /\
  UploadState.error (uploadState mid) = Some "İptal edildi" /\
  UploadState.uploading (uploadState mid) = false /\
  toastIdRef mid = None /\
  valueOf r = None /\
  UploadState.error (uploadState (stateOf r))
  = Some (errorMessage e "Yükleme başarısız") /\
  effectsOf r = [ToastError None (errorMessage e "Yükleme başarısız"); OnError e].
Proof.
  destruct h as [us ts fi uf sp wsr ti].
  destruct (upload_in_flight pollingInterval file tid ps us ts fi uf sp wsr ti)
    as [p Hp].
  cbv zeta. rewrite Hp.
  destruct ts as [tk st pr sg ms rs er].
  destruct sp, wsr, st; repeat split; find_in.
Qed.

(** [cancel] while the submission is pending does not hold: it sets the
    job to failed, but when the submission resolves the job takes the task
    id and the status of the response, a polling loop is started and
    stored, and the job keeps the cancellation message as its error. The
    loading toast shown at that point is held by no reference. *)
Theorem cancel_during_submission (pollingInterval : N) (h : Hook)
    (fileId : string) (options : TranscriptionRequest) (tid : ToastId)
    (response : TranscriptionResponse.t) (loop : LoopId)
    (ws : Outcome SocketId) :
  let mid := fst (handleAll pollingInterval
                    [StartBegins fileId options tid; CancelCalled] h) in
  let r := handleAll pollingInterval
             [StartBegins fileId options tid; CancelCalled;
              StartResolves response loop ws] h in
  jobStatus mid = failed /\
  transcriptionState (fst r)
  = TranscriptionState.mk (Some (TranscriptionResponse.task_id response))
      (TranscriptionResponse.status response) 0 None None None
      (Some "İşlem kullanıcı tarafından iptal edildi") /\
  stopPollingRef (fst r) = Some loop /\
  toastIdRef (fst r) = None /\
  In (ApiPollTaskStatus (TranscriptionResponse.task_id response)
        pollingInterval loop) (snd r) /\
  In (ToastLoading None "İşlem devam ediyor...") (snd r).
Proof.
  destruct h as [[f u p e] ts fi uf sp wsr ti].
  cbv zeta.
  destruct f, u, sp, wsr, ws; repeat split; find_in.
Qed.

(** The upload state after one event. *)
Lemma handle_uploadState (pollingInterval : N) (ev : HookEvent) (h : Hook) :
  uploadState (stateOf (handle pollingInterval ev h))
  = match ev with
    | UploadBegins file _ => UploadState.mk (Some file) true 0 None
    | UploadProgresses p => UploadState.set_progress p (uploadState h)
    | UploadResolves _ =>
        UploadState.set_progress 100
          (UploadState.set_uploading false (uploadState h))
    | UploadRejects e =>
        UploadState.set_error (Some (errorMessage e "Yükleme başarısız"))
          (UploadState.set_uploading false (uploadState h))
    | CancelCalled =>
        match UploadState.file (uploadState h) with
        | Some _ =>
            if UploadState.uploading (uploadState h)
            then UploadState.set_error (Some "İptal edildi")
                   (UploadState.set_uploading false (uploadState h))
            else uploadState h
        | None => uploadState h
        end
    | ResetCalled => initialUploadState
    | _ => uploadState h
    end.
Proof.
  destruct ev as [file tid | p | response | i response | e | fileId options tid
                  | response loop ws | e | u | | | | fmt dl blob | written].
  - reflexivity.
  - reflexivity.
  - reflexivity.
  - reflexivity.
  - reflexivity.
  - reflexivity.
  - destruct ws; reflexivity.
  - reflexivity.
  - destruct u as [update rnd | [d | d | d | err |]]; try reflexivity.
    + cbn [handle deliver]. unfold onUpdate.
      destruct (TranscriptionResponse.status update); reflexivity.
    + cbn [handle deliver]. unfold onMessage.
      unfold stateOf. cbn. destruct (toastIdRef h); reflexivity.
  - reflexivity.
  - destruct h as [[f u p e] [tk st pr sg ms rs er] fi uf sp ws ti].
    destruct f, u, st, sp, ws, ti; reflexivity.
  - destruct h as [[f u p e] [tk st pr sg ms rs er] fi uf sp ws ti].
    destruct f, u, st, sp, ws, ti; reflexivity.
  - cbn [handle]. unfold downloadResult.
    destruct (TranscriptionState.taskId (transcriptionState h)) as [tk |];
      [destruct (truthy_str (Some tk)), blob |]; reflexivity.
  - cbn [handle]. unfold copyToClipboard, resultText.
    destruct (TranscriptionState.result (transcriptionState h)) as [r |];
      [destruct (TranscriptionResponse.text r) as [t |];
       [destruct (truthy_str (Some t)), written |] |]; reflexivity.
Qed.

Lemma handle_uploadingHasFile (pollingInterval : N) (ev : HookEvent) (h : Hook) :
  uploadingHasFile h -> uploadingHasFile (stateOf (handle pollingInterval ev h)).
Proof.
  unfold uploadingHasFile. rewrite handle_uploadState.
  destruct (uploadState h) as [f u p e]. cbn.
  destruct ev; cbn; try (intros; discriminate); auto.
  destruct f; [destruct u |]; cbn; auto; intros; discriminate.
Qed.

Lemma handleAll_uploadingHasFile (pollingInterval : N) (evs : list HookEvent) :
  forall h,
    uploadingHasFile h ->
    uploadingHasFile (fst (handleAll pollingInterval evs h)).
Proof.
  induction evs as [| ev evs IH]; intros h Hh; [exact Hh |].
  cbn [handleAll].
  pose proof (handle_uploadingHasFile pollingInterval ev h Hh) as H1.
  unfold stateOf in H1.
  destruct (handle pollingInterval ev h) as [[u h1] e1]. cbn in H1.
  specialize (IH h1 H1).
  destruct (handleAll pollingInterval evs h1) as [h2 e2]. exact IH.
Qed.

(** After any events on a fresh hook, in any order, [cancel] leaves
    nothing processing, and if something was processing the hook reports
    an error afterwards. This rests on the upload state never being marked
    as uploading without its file, which every handler keeps. *)
Theorem cancel_stops_processing (pollingInterval : N) (evs : list HookEvent) :
  let h := fst (handleAll pollingInterval evs initialHook) in
  uploadingHasFile h /\
  isProcessing (stateOf (cancel h)) = false /\
  (isProcessing h = true -> hasError (stateOf (cancel h)) = true).
Proof.
  cbv zeta.
  assert (Hinv : uploadingHasFile
                   (fst (handleAll pollingInterval evs initialHook))).
  { apply handleAll_uploadingHasFile. intro H. discriminate H. }
  split; [exact Hinv |].
  destruct (fst (handleAll pollingInterval evs initialHook))
    as [[f u p e] [tk st pr sg ms rs er] fi uf sp ws ti].
  unfold uploadingHasFile in Hinv. cbn in Hinv.
  destruct f as [f |].
  - destruct u, st, sp, ws, ti; split; try reflexivity; intro H;
      try discriminate H; unfold hasError, stateOf; cbn;
      rewrite ?orb_true_r; reflexivity.
  - destruct u; [exfalso; apply Hinv; reflexivity |].
    destruct st, sp, ws, ti; split; try reflexivity; intro H;
      try discriminate H; unfold hasError, stateOf; cbn;
      rewrite ?orb_true_r; reflexivity.
Qed.

Lemma cancel_stops_processing_witness :
  hasError
    (stateOf (cancel (fst (handleAll 2000
                             [UploadBegins {| name := "a.wav"; file_size := 10 |}
                                           1%positive;
                              UploadProgresses 40] initialHook)))) = true.
Proof.
  exact (proj2 (proj2
    (cancel_stops_processing 2000
       [UploadBegins {| name := "a.wav"; file_size := 10 |} 1%positive;
        UploadProgresses 40])) eq_refl).
Defined.

(** ** What the references let the hook release *)

Ltac in_cases H :=
  cbn in H;
  repeat (destruct H as [H | H]; [try discriminate H |]);
  try contradiction.

Lemma deliver_effects_no_release (u : Update) (h : Hook) :
  (forall l, ~ In (StopPolling l) (effectsOf (deliver u h))) /\
  (forall w, ~ In (WsClose w) (effectsOf (deliver u h))).
Proof.
  destruct u as [update rnd | [d | d | d | err |]]; cbn [deliver];
    unfold onUpdate, onMessage;
    try (destruct (TranscriptionResponse.status update));
    try (destruct (toastIdRef h) eqn:E);
    split; intros x H; unfold effectsOf in H; cbn in H; try rewrite E in H;
    in_cases H.
Qed.

Lemma readonly_effects_no_release (h : Hook) fmt dl blob written :
  (forall l, ~ In (StopPolling l) (effectsOf (downloadResult fmt dl blob h))) /\
  (forall w, ~ In (WsClose w) (effectsOf (downloadResult fmt dl blob h))) /\
  (forall l, ~ In (StopPolling l) (effectsOf (copyToClipboard written h))) /\
  (forall w, ~ In (WsClose w) (effectsOf (copyToClipboard written h))) /\
  stateOf (downloadResult fmt dl blob h) = h /\
  stateOf (copyToClipboard written h) = h.
Proof.
  unfold downloadResult, copyToClipboard, resultText.
  destruct (TranscriptionState.taskId (transcriptionState h)) as [tk |];
    [destruct (truthy_str (Some tk)), blob |];
    (destruct (TranscriptionState.result (transcriptionState h)) as [r |];
     [destruct (TranscriptionResponse.text r) as [t |];
      [destruct (truthy_str (Some t)), written |] |]);
    repeat split; intros x H; in_cases H.
Qed.

(** One event stops only the loop that the reference holds, and closes
    only the socket that the reference holds. *)
Lemma handle_releases_held (pollingInterval : N) (ev : HookEvent) (h : Hook) :
  (forall l, In (StopPolling l) (effectsOf (handle pollingInterval ev h)) ->
             stopPollingRef h = Some l) /\
  (forall w, In (WsClose w) (effectsOf (handle pollingInterval ev h)) ->
             wsRef h = Some w).
Proof.
  destruct ev as [file tid | p | response | i response | e | fileId options tid
                  | response loop ws | e | u | | | | fmt dl blob | written].
  - split; intros x H; in_cases H.
  - split; intros x H; in_cases H.
  - split; intros x H; in_cases H.
  - split; intros x H; in_cases H.
  - split; intros x H; in_cases H.
  - split; intros x H; in_cases H.
  - destruct ws; split; intros x H; in_cases H.
  - split; intros x H; in_cases H.
  - destruct (deliver_effects_no_release u h) as [H1 H2].
    split; intros x H; [destruct (H1 x H) | destruct (H2 x H)].
  - split; intros x H; in_cases H.
  - destruct h as [[f u p e] [tk st pr sg ms rs er] fi uf sp ws ti].
    destruct f, u, st, sp, ws, ti; split; intros x H; in_cases H;
      injection H as ->; reflexivity.
  - destruct h as [[f u p e] [tk st pr sg ms rs er] fi uf sp ws ti].
    destruct f, u, st, sp, ws, ti; split; intros x H; in_cases H;
      injection H as ->; reflexivity.
  - destruct (readonly_effects_no_release h fmt dl blob (Resolved tt))
      as [H1 [H2 _]].
    split; intros x H; [destruct (H1 x H) | destruct (H2 x H)].
  - destruct (readonly_effects_no_release h txt 1%positive (Resolved "") written)
      as [_ [_ [H1 [H2 _]]]].
    split; intros x H; [destruct (H1 x H) | destruct (H2 x H)].
Qed.

(** The two references after one event. *)
Lemma handle_references (pollingInterval : N) (ev : HookEvent) (h : Hook) :
  stopPollingRef (stateOf (handle pollingInterval ev h))
  = match ev with
    | StartResolves _ loop _ => Some loop
    | CancelCalled | ResetCalled => None
    | _ => stopPollingRef h
    end /\
  wsRef (stateOf (handle pollingInterval ev h))
  = match ev with
    | StartResolves _ _ (Resolved sock) => Some sock
    | CancelCalled | ResetCalled | SocketCloses => None
    | _ => wsRef h
    end.
Proof.
  destruct ev as [file tid | p | response | i response | e | fileId options tid
                  | response loop ws | e | u | | | | fmt dl blob | written].
  - split; reflexivity.
  - split; reflexivity.
  - split; reflexivity.
  - split; reflexivity.
  - split; reflexivity.
  - split; reflexivity.
  - destruct ws; split; reflexivity.
  - split; reflexivity.
  - destruct u as [update rnd | [d | d | d | err |]]; cbn [handle deliver];
      unfold onUpdate, onMessage;
      try (destruct (TranscriptionResponse.status update));
      try (unfold stateOf; cbn; destruct (toastIdRef h));
      split; reflexivity.
  - split; reflexivity.
  - destruct h as [[f u p e] [tk st pr sg ms rs er] fi uf sp ws ti].
    destruct f, u, st, sp, ws, ti; split; reflexivity.
  - destruct h as [[f u p e] [tk st pr sg ms rs er] fi uf sp ws ti].
    destruct f, u, st, sp, ws, ti; split; reflexivity.
  - cbn [handle].
    destruct (readonly_effects_no_release h fmt dl blob (Resolved tt))
      as [_ [_ [_ [_ [H _]]]]].
    rewrite H. split; reflexivity.
  - cbn [handle].
    destruct (readonly_effects_no_release h txt 1%positive (Resolved "") written)
      as [_ [_ [_ [_ [_ H]]]]].
    rewrite H. split; reflexivity.
Qed.

(** A loop whose handle the reference does not hold is never stopped:
    whatever events follow, as long as none of them stores that loop
    again, the hook performs no stop of it and never holds it. So the
    loop of a first start, once a second start has overwritten the
    reference, is out of reach of [cancel], [reset] and every other
    operation. *)
Theorem lost_loop_never_stopped (pollingInterval : N) (l : LoopId)
    (evs : list HookEvent) :
  forall h : Hook,
    stopPollingRef h <> Some l ->
    Forall (fun ev => ~ startsLoop l ev) evs ->
    ~ In (StopPolling l) (snd (handleAll pollingInterval evs h)) /\
    stopPollingRef (fst (handleAll pollingInterval evs h)) <> Some l.
Proof.
  induction evs as [| ev evs IH]; intros h Hh Hevs.
  - split; [intros [] | exact Hh].
  - inversion Hevs as [| ev' evs' Hev Hrest]; subst.
    cbn [handleAll].
    destruct (handle_releases_held pollingInterval ev h) as [Hstop _].
    destruct (handle_references pollingInterval ev h) as [Href _].
    unfold stateOf, effectsOf in *.
    destruct (handle pollingInterval ev h) as [[u h1] e1].
    cbn [fst snd] in *.
    assert (Hh1 : stopPollingRef h1 <> Some l).
    { rewrite Href. destruct ev; try exact Hh; try discriminate.
      cbn in Hev. intro E. apply Hev. injection E as ->. reflexivity. }
    destruct (IH h1 Hh1 Hrest) as [Hno Hfin].
    destruct (handleAll pollingInterval evs h1) as [h2 e2].
    cbn [fst snd] in *.
    split; [| exact Hfin].
    intro Hin. apply in_app_or in Hin. destruct Hin as [Hin | Hin].
    + apply Hh. apply Hstop. exact Hin.
    + exact (Hno Hin).
Qed.

Lemma lost_loop_never_stopped_witness :
  ~ In (StopPolling 1%nat)
      (snd (handleAll 2000 [UpdateArrives (FromPoll sampleProcessing (1 # 2));
                            CancelCalled; ResetCalled]
              (stateOf (startTranscription 2000 "f2" sampleOptions 2%positive
                          (Resolved sampleProcessing) 2%nat (Resolved 2%nat)
                          startedHook)))).
Proof.
  refine (proj1 (lost_loop_never_stopped 2000 1%nat
                   [UpdateArrives (FromPoll sampleProcessing (1 # 2));
                    CancelCalled; ResetCalled] _ _ _)).
  - cbn. discriminate.
  - repeat constructor; cbn; auto.
Defined.

(** The close handler of a socket empties the socket reference without
    looking at which socket closed. A socket that the reference held at
    that point is therefore never closed by the hook afterwards, unless a
    later start stores it again. *)
Theorem socket_close_drops_reference (pollingInterval : N) (w : SocketId)
    (evs : list HookEvent) (h : Hook)
    (Hevs : Forall (fun ev => ~ opensSocket w ev) evs) :
  wsRef (stateOf (onClose h)) = None /\
  ~ In (WsClose w) (snd (handleAll pollingInterval (SocketCloses :: evs) h)).
Proof.
  split; [reflexivity |].
  cbn [handleAll handle]. unfold onClose.
  cbn [setWsRef]. set (h0 := mkHook _ _ _ _ _ _ _).
  assert (Hh0 : wsRef h0 <> Some w) by (cbn; discriminate).
  clearbody h0. revert h0 Hh0.
  induction evs as [| ev evs IH]; intros h0 Hh0.
  - cbn. intros [].
  - inversion Hevs as [| ev' evs' Hev Hrest]; subst.
    cbn [handleAll].
    destruct (handle_releases_held pollingInterval ev h0) as [_ Hclose].
    destruct (handle_references pollingInterval ev h0) as [_ Href].
    unfold stateOf, effectsOf in *.
    destruct (handle pollingInterval ev h0) as [[u h1] e1].
    cbn [fst snd] in *.
    assert (Hh1 : wsRef h1 <> Some w).
    { rewrite Href. destruct ev; try exact Hh0; try discriminate.
      destruct ws as [sock | e]; [| exact Hh0].
      cbn in Hev. intro E. apply Hev. injection E as ->. reflexivity. }
    specialize (IH Hrest h1 Hh1).
    destruct (handleAll pollingInterval evs h1) as [h2 e2].
    cbn [app] in *. intro Hin. apply in_app_or in Hin.
    destruct Hin as [Hin | Hin].
    + apply Hh0. apply Hclose. exact Hin.
    + exact (IH Hin).
Qed.

Lemma socket_close_drops_reference_witness :
  ~ In (WsClose 1%nat)
      (snd (handleAll 2000 [SocketCloses; CancelCalled] startedHook)).
Proof.
  refine (proj2 (socket_close_drops_reference 2000 1%nat [CancelCalled]
                   startedHook _)).
  repeat constructor; cbn; auto.
Defined.

(** The cleanup on unmount releases what the references hold, in the
    order of [cancel], but it neither aborts a transfer in flight nor
    changes any state, the references included; [cancel] is that cleanup
    preceded by the abort of the transfer. *)
Theorem unmount_releases (h : Hook) :
  stateOf (unmount h) = h /\
  effectsOf (cancel h)
  = (match UploadState.file (uploadState h) with
     | Some f =>
         if UploadState.uploading (uploadState h)
         then [ApiCancelUpload (name f)] else []
     | None => []
     end ++ effectsOf (unmount h))%list /\
  (forall n, ~ In (ApiCancelUpload n) (effectsOf (unmount h))).
Proof.
  destruct h as [[f u p e] [tk st pr sg ms rs er] fi uf sp ws ti].
  destruct f, u, st, sp, ws, ti; repeat split; intros n H; in_cases H.
Qed.

(** A submission answered with a status other than processing leaves
    [isProcessing] false although the polling loop has been started and
    stored: the upload card, which forwards a selected file whenever the
    hook is not processing, lets the next file through. *)
Theorem pending_submission_not_processing (pollingInterval : N) (h : Hook)
    (fileId : string) (options : TranscriptionRequest) (tid : ToastId)
    (response : TranscriptionResponse.t) (loop : LoopId)
    (ws : Outcome SocketId) (file : File)
    (Hup : UploadState.uploading (uploadState h) = false)
    (Hst : TranscriptionResponse.status response <> processing) :
  let h' := stateOf (startTranscription pollingInterval fileId options tid
                       (Resolved response) loop ws h) in
  stopPollingRef h' = Some loop /\
  isProcessing h' = false /\
  handleUpload (Some file) (isProcessing h') = Some file.
Proof.
  cbv zeta. destruct h as [[f u p e] ts fi uf sp wsr ti]. cbn in Hup. subst u.
  assert (Hp : isProcessing
                 (stateOf (startTranscription pollingInterval fileId options
                             tid (Resolved response) loop ws
                             (mkHook (UploadState.mk f false p e) ts fi uf sp
                                     wsr ti))) = false).
  { destruct ws; unfold isProcessing, jobStatus, stateOf; cbn;
      destruct (TranscriptionResponse.status response);
      try reflexivity; exfalso; apply Hst; reflexivity. }
  rewrite Hp. destruct ws; repeat split.
Qed.

Lemma pending_submission_not_processing_witness :
  isProcessing
    (stateOf (startTranscription 2000 "f1" sampleOptions 1%positive
                (Resolved (TranscriptionResponse.mk "t1" pending None None
                             "2024-01-01T00:00:00"))
                1%nat (Resolved 1%nat) initialHook)) = false.
Proof.
  refine (proj1 (proj2
    (pending_submission_not_processing 2000 initialHook "f1" sampleOptions
       1%positive
       (TranscriptionResponse.mk "t1" pending None None "2024-01-01T00:00:00")
       1%nat (Resolved 1%nat) {| name := "b.wav"; file_size := 1 |}
       eq_refl _))).
  cbn. discriminate.
Defined.

(** * Further properties of the polling loop *)

Lemma run_app (l : Poll.Loop) (es es' : list Poll.Event) :
  Poll.run l (es ++ es') = Poll.run (Poll.run l es) es'.
Proof. apply fold_left_app. Qed.

Lemma run_cons (l : Poll.Loop) (e : Poll.Event) (es : list Poll.Event) :
  Poll.run l (e :: es) = Poll.run (Poll.step l e) es.
Proof. reflexivity. Qed.

(** The loop never gives up on failures: after [n] failed attempts in a
    row it has issued [n + 1] requests, the last of which is in flight,
    it has delivered nothing, and it is not stopped; each of the waits
    was of twice the interval. *)
Theorem poll_retries_forever (base : N) (n : nat) :
  let l := Poll.run (Poll.pollTaskStatus base) (failedAttempts n) in
  Poll.requests l = S n /\
  Poll.awaiting l = true /\
  Poll.stopped l = false /\
  Poll.timer l = None /\
  Poll.delivered l = [] /\
  Poll.timer (Poll.step l Poll.Reject) = Some (base * 2)%N.
Proof.
  cbv zeta.
  assert (H : forall k m,
             Poll.run (Poll.mk base false true None m []) (failedAttempts k)
             = Poll.mk base false true None (k + m) []).
  { induction k as [| k IH]; intro m; [reflexivity |].
    cbn [failedAttempts]. rewrite !run_cons. cbn [Poll.step Poll.awaiting
      Poll.rejected Poll.timer Poll.poll Poll.stopped Poll.interval
      Poll.requests Poll.delivered].
    rewrite IH. f_equal. lia. }
  unfold Poll.pollTaskStatus, Poll.poll. cbn [Poll.stopped Poll.interval
    Poll.timer Poll.requests Poll.delivered].
  rewrite H. cbn. repeat split. f_equal. lia.
Qed.

Lemma step_terminalLast (l : Poll.Loop) (e : Poll.Event) :
  terminalLast l -> terminalLast (Poll.step l e).
Proof.
  intros [Hall | [Hs [Ha Hinit]]].
  - destruct l as [i s a t n d]. cbn in Hall.
    destruct e as [r | | |]; cbn; unfold Poll.resolved, Poll.rejected, Poll.poll;
      cbn.
    + destruct a; [| left; exact Hall].
      destruct (Poll.isTerminal (TranscriptionResponse.status r)) eqn:E.
      * right. cbn. rewrite removelast_last. repeat split. exact Hall.
      * left. cbn. apply Forall_app. split; [exact Hall |].
        constructor; [exact E | constructor].
    + destruct a; left; exact Hall.
    + destruct t; [destruct s |]; left; exact Hall.
    + left. exact Hall.
  - destruct l as [i s a t n d]. cbn in Hs, Ha, Hinit. subst s a.
    right. destruct e as [r | | |]; cbn; unfold Poll.poll; cbn;
      [| | destruct t |]; repeat split; exact Hinit.
Qed.

(** At most one terminal response is ever handed to [onUpdate], and
    nothing is handed over after it: of the responses a loop has
    delivered, all but the last are not terminal. *)
Theorem poll_terminal_is_last (base : N) (es : list Poll.Event) :
  Forall nonTerminal
    (removelast (Poll.delivered (Poll.run (Poll.pollTaskStatus base) es))).
Proof.
  assert (H : forall l, terminalLast l -> terminalLast (Poll.run l es)).
  { induction es as [| e es IH]; intros l Hl; [exact Hl |].
    rewrite run_cons. apply IH, step_terminalLast, Hl. }
  destruct (H (Poll.pollTaskStatus base)) as [Hall | [_ [_ Hinit]]].
  - left. constructor.
  - clear H. induction (Poll.delivered (Poll.run (Poll.pollTaskStatus base) es))
      as [| x xs IHxs]; [constructor |].
    cbn [removelast]. destruct xs as [| y ys]; [constructor |].
    inversion Hall as [| ? ? Hx Hrest]; subst.
    constructor; [exact Hx | exact (IHxs Hrest)].
  - exact Hinit.
Qed.

Lemma step_oneActivity (l : Poll.Loop) (e : Poll.Event) :
  oneActivity l -> oneActivity (Poll.step l e).
Proof.
  intros [Hexcl [Hlive Hcount]]. destruct l as [i s a t n d].
  cbn in Hexcl, Hlive, Hcount.
  destruct e as [r | | |]; cbn; unfold Poll.resolved, Poll.rejected, Poll.poll,
    oneActivity; cbn.
  - destruct a; [| repeat split; auto].
    destruct (Poll.isTerminal (TranscriptionResponse.status r)); cbn;
      rewrite length_app; cbn; repeat split; intros; try discriminate;
      try (right; discriminate); lia.
  - destruct a; [| repeat split; auto]. cbn.
    repeat split; intros; try discriminate; try (right; discriminate); lia.
  - destruct t as [d0 |]; [| repeat split; auto].
    destruct s; cbn.
    + repeat split; intros; try discriminate; auto.
    + destruct a.
      * specialize (Hexcl eq_refl). discriminate Hexcl.
      * repeat split; intros; auto; lia.
  - repeat split; intros; auto; discriminate.
Qed.

(** In every state that a started loop can reach, it has at most one
    thing pending, a request in flight or a timer, never both; as long as
    it is not stopped it has one, so it cannot stall; and every response
    it delivered, and the request in flight, account for a request of
    their own. *)
Theorem poll_one_activity (base : N) (es : list Poll.Event) :
  oneActivity (Poll.run (Poll.pollTaskStatus base) es).
Proof.
  assert (H : forall l, oneActivity l -> oneActivity (Poll.run l es)).
  { induction es as [| e es IH]; intros l Hl; [exact Hl |].
    rewrite run_cons. apply IH, step_oneActivity, Hl. }
  apply H. unfold oneActivity. cbn. repeat split; auto.
Qed.
